(** * allo_aide: the view layer of the skill-exchange application

    A shallow embedding of [myapp/allo_aide/views.py].  Every view is a
    function from the stored state and the request to the new stored state
    and the response.  Tables of the relational store are finite maps from
    primary key to row; the session table maps a browser session to the
    authenticated user. *)

From Stdlib Require Import Ascii String.
From stdpp Require Import gmap strings list fin_maps.

Open Scope string_scope.
Open Scope nat_scope.

(** ** Data model *)

(** A calendar date, the value of [datetime.date]. *)
Record Date := mkDate { year : nat; month : nat; day : nat }.

Global Instance Date_eq_dec : EqDecision Date.
Proof. solve_decision. Defined.

(** Modelled from the spec: [models.py] is not among the sources.  The rows
    follow section 3 of the specification: a Skill has an owner and
    name/description fields.  The owner is optional because an instance built
    by a form with [commit=False] has none until the view assigns one. *)
Record Skill := mkSkill {
  skill_user : option nat;
  skill_name : string;
  skill_description : string }.

(** Modelled from the spec: a HelpRequest has an owner, optional per form, and
    description fields. *)
Record HelpRequest := mkHelpRequest {
  help_user : option nat;
  help_description : string }.

(** Modelled from the spec: a TimeSlot has a proposer, the key of its Skill,
    a date, the availability flag and other schedule fields. *)
Record TimeSlot := mkTimeSlot {
  slot_user : option nat;
  slot_skill : nat;
  slot_date : Date;
  slot_schedule : string;
  is_available : bool }.

(** Modelled from the spec: a Reservation holds the key of its TimeSlot and
    the reserving user; the view builds it as
    [Reservation(time_slot=slot, user=request.user)]. *)
Record Reservation := mkReservation {
  time_slot : nat;
  reservation_user : nat }.

Global Instance Skill_eq_dec : EqDecision Skill.
Proof. solve_decision. Defined.
Global Instance HelpRequest_eq_dec : EqDecision HelpRequest.
Proof. solve_decision. Defined.
Global Instance TimeSlot_eq_dec : EqDecision TimeSlot.
Proof. solve_decision. Defined.
Global Instance Reservation_eq_dec : EqDecision Reservation.
Proof. solve_decision. Defined.

(** The stored state: the four tables written by the views, keyed by primary
    key, and the session table of the authentication middleware. *)
Record State := mkState {
  skills : gmap nat Skill;
  help_requests : gmap nat HelpRequest;
  time_slots : gmap nat TimeSlot;
  reservations : gmap nat Reservation;
  sessions : gmap nat nat }.

Definition set_skills (f : gmap nat Skill → gmap nat Skill) (st : State) : State :=
  mkState (f (skills st)) (help_requests st) (time_slots st) (reservations st) (sessions st).
Definition set_help_requests (f : gmap nat HelpRequest → gmap nat HelpRequest) (st : State) : State :=
  mkState (skills st) (f (help_requests st)) (time_slots st) (reservations st) (sessions st).
Definition set_time_slots (f : gmap nat TimeSlot → gmap nat TimeSlot) (st : State) : State :=
  mkState (skills st) (help_requests st) (f (time_slots st)) (reservations st) (sessions st).
Definition set_reservations (f : gmap nat Reservation → gmap nat Reservation) (st : State) : State :=
  mkState (skills st) (help_requests st) (time_slots st) (f (reservations st)) (sessions st).
Definition set_sessions (f : gmap nat nat → gmap nat nat) (st : State) : State :=
  mkState (skills st) (help_requests st) (time_slots st) (reservations st) (f (sessions st)).

Definition empty_state : State := mkState ∅ ∅ ∅ ∅ ∅.

(** ** The object-relational layer *)

(** The key an INSERT gives a new row: one more than the largest key in use
    (1 in an empty table). *)
Definition next_pk {A} (table : gmap nat A) : nat :=
  S (max_list (fst <$> map_to_list table)).

(** [instance.save()] of an instance that has no primary key yet. *)
Definition objects_create {A} (row : A) (table : gmap nat A) : gmap nat A :=
  <[next_pk table := row]> table.

(** [instance.save()] of an instance read from the table under key [pk]. *)
Definition objects_update {A} (pk : nat) (row : A) (table : gmap nat A) : gmap nat A :=
  <[pk := row]> table.

(** ** Requests and responses *)

(** The submitted form data, [request.POST]. *)
Definition PostData : Type := list (string * string).

(** A request: the session it arrives with, the HTTP method and the form
    data. *)
Record Request := mkRequest {
  session_key : nat;
  method : string;
  POST : PostData }.

(** [request.user], resolved from the session table: [None] stands for the
    anonymous user. *)
Definition request_user (st : State) (request : Request) : option nat :=
  sessions st !! session_key request.

(** A form object handed to a template: unbound (empty), or bound to the
    submitted data. *)
Inductive Form :=
  | UnboundForm
  | BoundForm (data : PostData).

(** A row of the history page: the reservation with the related objects that
    [select_related('time_slot', 'time_slot__skill')] attaches. *)
Record ReservationRow := mkReservationRow {
  row_reservation : Reservation;
  row_time_slot : option TimeSlot;
  row_skill : option Skill }.

(** The context mappings given to the templates, one constructor per shape. *)
Inductive Context :=
  | HomeContext (ctx_skills : gmap nat Skill) (ctx_timeslots : gmap nat TimeSlot)
  | HomeUserContext (ctx_skills : gmap nat Skill)
      (ctx_help_requests : gmap nat HelpRequest) (ctx_time_slots : gmap nat TimeSlot)
  | FormContext (form : Form)
  | FindSlotsContext (available_slots : gmap nat TimeSlot) (skill : Skill)
      (date : option Date) (error_message : option string)
  | ErrorContext (message : string)
  | HistoryContext (ctx_reservations : gmap nat ReservationRow).

(** What a view returns, or what the framework makes of an exception it
    raises: [Http404] for the exception of [get_object_or_404],
    [ServerError] for any other uncaught exception, [RedirectToLogin] for the
    refusal of [login_required]. *)
Inductive Response :=
  | Render (template : string) (context : Context)
  | Redirect (to : string)
  | RedirectToLogin
  | Http404
  | ServerError.

(** ** The collaborators of the views *)

(** The fields a valid TimeSlotForm yields.  Modelled from the spec:
    [forms.py] is not among the sources; the form carries the proposer, the
    skill, the date and the schedule fields, and not the availability flag. *)
Record TimeSlotFields := mkTimeSlotFields {
  form_slot_user : option nat;
  form_slot_skill : nat;
  form_slot_date : Date;
  form_slot_schedule : string }.

(** The form classes, the credential check and the date parser are given by
    the framework and by [forms.py].  A [*_clean] function answers [None] when
    [is_valid()] is false and otherwise the instance that [save] builds from
    the cleaned data; validation may consult the store. *)
Class Collaborators := {
  SkillForm_clean : State → PostData → option Skill;
  HelpRequestForm_clean : State → PostData → option HelpRequest;
  TimeSlotForm_clean : State → PostData → option TimeSlotFields;
  AuthenticationForm_clean : PostData → option (string * string);
  authenticate : string → string → option nat;
  strptime_Ymd : string → option Date }.

(** Modelled from the spec: a TimeSlot is created in state
    [is_available = true]. *)
Definition TimeSlotForm_instance (f : TimeSlotFields) : TimeSlot :=
  mkTimeSlot (form_slot_user f) (form_slot_skill f) (form_slot_date f)
    (form_slot_schedule f) true.

(** ** The views *)

Section Views.
Context `{Collaborators}.

(** [get_object_or_404(Model, id=pk)]: the row, or [None] where it raises
    Http404. *)
Definition get_object_or_404 {A} (table : gmap nat A) (pk : nat) : option A :=
  table !! pk.

(** The decorator [login_required]: an anonymous request is redirected to the
    login view and the wrapped view is not called. *)
Definition login_required (view : State → Request → State * Response)
    (st : State) (request : Request) : State * Response :=
  match request_user st request with
  | Some _ => view st request
  | None => (st, RedirectToLogin)
  end.

(** [login(request, user)] and [logout(request)] of the authentication
    framework, on the session table. *)
Definition login (request : Request) (user : nat) (st : State) : State :=
  set_sessions (insert (session_key request) user) st.

Definition logout (request : Request) (st : State) : State :=
  set_sessions (delete (session_key request)) st.

Definition home (st : State) (request : Request) : State * Response :=
  let skills := skills st in
  let timeslots := filter (λ kv, is_available kv.2 = true) (time_slots st) in
  (st, Render "allo_aide/home.html" (HomeContext skills timeslots)).

(** Filtering on [user=request.user] raises for the anonymous user, which is
    not a model instance. *)
Definition home_user (st : State) (request : Request) : State * Response :=
  match request_user st request with
  | None => (st, ServerError)
  | Some user =>
      let skills := filter (λ kv, skill_user kv.2 = Some user) (skills st) in
      let help_requests := filter (λ kv, help_user kv.2 = Some user) (help_requests st) in
      let time_slots := filter (λ kv, slot_user kv.2 = Some user) (time_slots st) in
      (st, Render "allo_aide/home_user.html"
             (HomeUserContext skills help_requests time_slots))
  end.

Definition login_view (st : State) (request : Request) : State * Response :=
  let rerender form := (st, Render "allo_aide/login.html" (FormContext form)) in
  if decide (method request = "POST") then
    match AuthenticationForm_clean (POST request) with
    | Some (username, password) =>
        match authenticate username password with
        | Some user => (login request user st, Redirect "allo_aide:home_user")
        | None => rerender (BoundForm (POST request))
        end
    | None => rerender (BoundForm (POST request))
    end
  else rerender UnboundForm.

Definition logout_view (st : State) (request : Request) : State * Response :=
  (logout request st, Redirect "allo_aide:home").

(** Assigning the anonymous user to [new_skill.user] raises, since it is not
    a User instance. *)
Definition create_new_skill (st : State) (request : Request) : State * Response :=
  if decide (method request = "POST") then
    match SkillForm_clean st (POST request) with
    | Some new_skill =>
        match request_user st request with
        | Some user =>
            let new_skill :=
              mkSkill (Some user) (skill_name new_skill) (skill_description new_skill) in
            (set_skills (objects_create new_skill) st, Redirect "allo_aide:home_user")
        | None => (st, ServerError)
        end
    | None =>
        (st, Render "allo_aide/create_new_skill.html" (FormContext (BoundForm (POST request))))
    end
  else (st, Render "allo_aide/create_new_skill.html" (FormContext UnboundForm)).

Definition create_new_request (st : State) (request : Request) : State * Response :=
  if decide (method request = "POST") then
    match HelpRequestForm_clean st (POST request) with
    | Some help_request =>
        (set_help_requests (objects_create help_request) st, Redirect "allo_aide:home_user")
    | None =>
        (st, Render "allo_aide/create_new_demande.html" (FormContext (BoundForm (POST request))))
    end
  else (st, Render "allo_aide/create_new_demande.html" (FormContext UnboundForm)).

Definition create_new_proposition (st : State) (request : Request) : State * Response :=
  if decide (method request = "POST") then
    match TimeSlotForm_clean st (POST request) with
    | Some fields =>
        (set_time_slots (objects_create (TimeSlotForm_instance fields)) st,
         Redirect "allo_aide:home_user")
    | None =>
        (st, Render "allo_aide/create_new_proposition.html"
               (FormContext (BoundForm (POST request))))
    end
  else (st, Render "allo_aide/create_new_proposition.html" (FormContext UnboundForm)).

Definition invalid_date_message : string :=
  "Invalid date format. Please enter a date in YYYY-MM-DD format.".

Definition find_slots (skill_id : nat) (date : string)
    (st : State) (request : Request) : State * Response :=
  match get_object_or_404 (skills st) skill_id with
  | None => (st, Http404)
  | Some skill =>
      let '(date_obj, error_message) :=
        match strptime_Ymd date with
        | Some d => (Some d, None)
        | None => (None, Some invalid_date_message)
        end in
      let available_slots :=
        match date_obj with
        | Some d =>
            filter (λ kv, slot_skill kv.2 = skill_id ∧ slot_date kv.2 = d
                          ∧ is_available kv.2 = true) (time_slots st)
        | None => ∅
        end in
      (st, Render "allo_aide/find_slots.html"
             (FindSlotsContext available_slots skill date_obj error_message))
  end.

Definition already_reserved_message : string := "Ce créneau est déjà réservé.".

(** The body of [reserve_slot], under its decorator.  The slot is written
    back with every field as it was read, but for the flag. *)
Definition reserve_slot_view (slot_id : nat)
    (st : State) (request : Request) : State * Response :=
  match get_object_or_404 (time_slots st) slot_id with
  | None => (st, Http404)
  | Some slot =>
      if is_available slot then
        match request_user st request with
        | Some user =>
            let reservation := mkReservation slot_id user in
            let st := set_reservations (objects_create reservation) st in
            let slot := mkTimeSlot (slot_user slot) (slot_skill slot) (slot_date slot)
                          (slot_schedule slot) false in
            let st := set_time_slots (objects_update slot_id slot) st in
            (st, Redirect "allo_aide:history")
        | None => (st, ServerError)
        end
      else (st, Render "allo_aide/error.html" (ErrorContext already_reserved_message))
  end.

Definition reserve_slot (slot_id : nat) : State → Request → State * Response :=
  login_required (reserve_slot_view slot_id).

(** The related objects of a reservation: its TimeSlot and that slot's
    Skill. *)
Definition select_related (st : State) (r : Reservation) : ReservationRow :=
  let slot := time_slots st !! time_slot r in
  mkReservationRow r slot (slot ≫= λ s, skills st !! slot_skill s).

Definition history_view (st : State) (request : Request) : State * Response :=
  match request_user st request with
  | None => (st, ServerError)
  | Some user =>
      let reservations :=
        select_related st <$>
          filter (λ kv, reservation_user kv.2 = user) (reservations st) in
      (st, Render "allo_aide/history.html" (HistoryContext reservations))
  end.

Definition history : State → Request → State * Response :=
  login_required history_view.

(** ** Routing and runs *)

(** The ten handlers, with the arguments the URL gives them. *)
Inductive Route :=
  | Route_home
  | Route_home_user
  | Route_login
  | Route_logout
  | Route_create_new_skill
  | Route_create_new_request
  | Route_create_new_proposition
  | Route_find_slots (skill_id : nat) (date : string)
  | Route_reserve_slot (slot_id : nat)
  | Route_history.

Definition dispatch (route : Route) : State → Request → State * Response :=
  match route with
  | Route_home => home
  | Route_home_user => home_user
  | Route_login => login_view
  | Route_logout => logout_view
  | Route_create_new_skill => create_new_skill
  | Route_create_new_request => create_new_request
  | Route_create_new_proposition => create_new_proposition
  | Route_find_slots skill_id date => find_slots skill_id date
  | Route_reserve_slot slot_id => reserve_slot slot_id
  | Route_history => history
  end.

(** The state after serving the requests of a list one after the other. *)
Fixpoint run (requests : list (Route * Request)) (st : State) : State :=
  match requests with
  | [] => st
  | (route, request) :: rest => run rest (dispatch route st request).1
  end.

End Views.

(** ** A concrete set of collaborators *)

(** An ASCII digit and its value. *)
Definition ascii_digit (c : ascii) : option nat :=
  let x := N_of_ascii c in
  if decide (48 ≤ x ≤ 57)%N then Some (N.to_nat (x - 48)) else None.

(** [strptime(date, '%Y-%m-%d').date()].  A text is held as its UTF-8 bytes
    and read as code points.  The format compiles to the pattern
    [(\d\d\d\d)-(1[0-2]|0[1-9]|[1-9])-(3[0-1]|[1-2]\d|0[1-9]|[1-9]| [1-9])],
    in which [\d] is any decimal digit of Unicode and the classes are ASCII.
    The alternatives of a group are tried in order; the pattern is matched at
    the start of the text, text left over after the match is an error, and so
    is a day the month does not have or the year 0. *)
Module Strptime.

(** The six low bits of a continuation byte. *)
Definition continuation_byte (b : ascii) : option N :=
  let x := N_of_ascii b in
  if decide (128 ≤ x < 192)%N then Some (x - 128)%N else None.

(** The code points of a text from its UTF-8 bytes, [None] for bytes that
    are not the encoding of a text. *)
Fixpoint decode_utf8 (s : string) : option (list N) :=
  match s with
  | EmptyString => Some []
  | String a s1 =>
      let x := N_of_ascii a in
      if decide (x < 128)%N then cons x <$> decode_utf8 s1
      else if decide (194 ≤ x < 224)%N then
        match s1 with
        | String b s2 =>
            match continuation_byte b with
            | Some y => cons ((x - 192) * 64 + y)%N <$> decode_utf8 s2
            | None => None
            end
        | _ => None
        end
      else if decide (224 ≤ x < 240)%N then
        match s1 with
        | String b (String c s3) =>
            match continuation_byte b, continuation_byte c with
            | Some y, Some z =>
                let point := ((x - 224) * 4096 + y * 64 + z)%N in
                if decide (2048 ≤ point ∧ ¬ 55296 ≤ point < 57344)%N
                then cons point <$> decode_utf8 s3 else None
            | _, _ => None
            end
        | _ => None
        end
      else if decide (240 ≤ x < 245)%N then
        match s1 with
        | String b (String c (String d s4)) =>
            match continuation_byte b, continuation_byte c, continuation_byte d with
            | Some y, Some z, Some w =>
                let point := ((x - 240) * 262144 + y * 4096 + z * 64 + w)%N in
                if decide (65536 ≤ point < 1114112)%N
                then cons point <$> decode_utf8 s4 else None
            | _, _, _ => None
            end
        | _ => None
        end
      else None
  end.

(** The decimal digits of Unicode 14 come in runs of ten, zero to nine; these
    are the code points of the zeros.  A later version of the standard adds
    runs, so the parser takes the digits as an argument. *)
Definition decimal_zeros : list N :=
  [48; 1632; 1776; 1984; 2406; 2534; 2662; 2790; 2918; 3046; 3174; 3302; 3430; 3558;
   3664; 3792; 3872; 4160; 4240; 6112; 6160; 6470; 6608; 6784; 6800; 6992; 7088; 7232;
   7248; 42528; 43216; 43264; 43472; 43504; 43600; 44016; 65296; 66720; 68912; 69734;
   69872; 69942; 70096; 70384; 70736; 70864; 71248; 71360; 71472; 71904; 72016; 72784;
   73040; 73120; 92768; 92864; 93008; 120782; 120792; 120802; 120812; 120822; 123200;
   123632; 125264; 130032]%N.

Definition unicode_decimal (c : N) : option nat :=
  (λ zero, N.to_nat (c - zero))
    <$> List.find (λ zero, bool_decide (zero ≤ c < zero + 10)%N) decimal_zeros.

(** A class of ASCII digits, [[lo-hi]], and the space. *)
Definition class (lo hi : N) (c : N) : option nat :=
  if decide (lo ≤ c ≤ hi)%N then Some (N.to_nat (c - 48)) else None.

Definition space (c : N) : option nat :=
  if decide (c = 32%N) then Some 0 else None.

(** One alternative of a group: the value it reads and the text after it. *)
Definition two_points (tens units : N → option nat) (s : list N) : option (nat * list N) :=
  match s with
  | a :: b :: rest =>
      match tens a, units b with
      | Some x, Some y => Some (10 * x + y, rest)
      | _, _ => None
      end
  | _ => None
  end.

Definition one_point (units : N → option nat) (s : list N) : option (nat * list N) :=
  match s with
  | a :: rest => (λ x, (x, rest)) <$> units a
  | _ => None
  end.

(** The first alternative after which the rest of the pattern matches. *)
Fixpoint alternation {A} (alternatives : list (list N → option (nat * list N)))
    (continue : nat → list N → option A) (s : list N) : option A :=
  match alternatives with
  | [] => None
  | p :: others =>
      match p s ≫= (λ vr, continue vr.1 vr.2) with
      | Some r => Some r
      | None => alternation others continue s
      end
  end.

(** The first alternative that matches, for a group that ends the pattern. *)
Fixpoint first_match (alternatives : list (list N → option (nat * list N)))
    (s : list N) : option (nat * list N) :=
  match alternatives with
  | [] => None
  | p :: others =>
      match p s with
      | Some r => Some r
      | None => first_match others s
      end
  end.

Definition literal {A} (c : N) (continue : list N → option A) (s : list N) : option A :=
  match s with
  | a :: rest => if decide (a = c) then continue rest else None
  | _ => None
  end.

Definition year_group {A} (decimal : N → option nat)
    (continue : nat → list N → option A) (s : list N) : option A :=
  match s with
  | a :: b :: c :: d :: rest =>
      match decimal a, decimal b, decimal c, decimal d with
      | Some w, Some x, Some y, Some z => continue (1000 * w + 100 * x + 10 * y + z) rest
      | _, _, _, _ => None
      end
  | _ => None
  end.

Definition month_group {A} : (nat → list N → option A) → list N → option A :=
  alternation [two_points (class 49 49) (class 48 50);
               two_points (class 48 48) (class 49 57);
               one_point (class 49 57)].

Definition day_group (decimal : N → option nat) : list N → option (nat * list N) :=
  first_match [two_points (class 51 51) (class 48 49);
               two_points (class 49 50) decimal;
               two_points (class 48 48) (class 49 57);
               one_point (class 49 57);
               two_points space (class 49 57)].

(** The match of the whole pattern: year, month, day and the text left. *)
Definition format_regex (decimal : N → option nat) (s : list N)
    : option (nat * nat * nat * list N) :=
  year_group decimal (λ y, literal 45 (month_group (λ m, literal 45 (λ after,
    match day_group decimal after with
    | Some (d, rest) => Some (y, m, d, rest)
    | None => None
    end)))) s.

Definition is_leap (y : nat) : bool :=
  bool_decide (y mod 4 = 0 ∧ (y mod 100 ≠ 0 ∨ y mod 400 = 0)).

Definition days_in_month (y m : nat) : nat :=
  match m with
  | 2 => if is_leap y then 29 else 28
  | 4 | 6 | 9 | 11 => 30
  | _ => 31
  end.

Definition valid_date (y m d : nat) : bool :=
  bool_decide (1 ≤ y ∧ 1 ≤ m ≤ 12 ∧ 1 ≤ d ≤ days_in_month y m).

Definition strptime (decimal : N → option nat) (text : string) : option Date :=
  match decode_utf8 text ≫= format_regex decimal with
  | Some (y, m, d, []) => if valid_date y m d then Some (mkDate y m d) else None
  | _ => None
  end.

Definition parse : string → option Date := strptime unicode_decimal.

End Strptime.

(** Following the spec's words: the date a text denotes when it is read
    strictly as YYYY-MM-DD, that is four digits, a hyphen, two digits, a
    hyphen and two digits that name a day of the calendar. *)
Definition strict_iso (text : string) : option Date :=
  match text with
  | String y1 (String y2 (String y3 (String y4 (String h1 (String m1 (String m2
      (String h2 (String d1 (String d2 EmptyString))))))))) =>
      match ascii_digit y1, ascii_digit y2, ascii_digit y3, ascii_digit y4,
            ascii_digit m1, ascii_digit m2, ascii_digit d1, ascii_digit d2 with
      | Some a, Some b, Some c, Some d, Some e, Some f, Some g, Some h =>
          let y := 1000 * a + 100 * b + 10 * c + d in
          let m := 10 * e + f in
          let day := 10 * g + h in
          if decide (h1 = "-"%char ∧ h2 = "-"%char) then
            if Strptime.valid_date y m day then Some (mkDate y m day) else None
          else None
      | _, _, _, _, _, _, _, _ => None
      end
  | _ => None
  end.

(** [QueryDict.get]: the last value submitted under a key. *)
Fixpoint post_get (key : string) (data : PostData) : option string :=
  match data with
  | [] => None
  | (k, v) :: rest =>
      match post_get key rest with
      | Some later => Some later
      | None => if decide (k = key) then Some v else None
      end
  end.

(** A decimal primary key, as a choice field submits it. *)
Fixpoint parse_pk_from (acc : nat) (s : string) : option nat :=
  match s with
  | EmptyString => Some acc
  | String c rest => ascii_digit c ≫= λ d, parse_pk_from (10 * acc + d) rest
  end.

Definition parse_pk (s : string) : option nat :=
  match s with
  | EmptyString => None
  | _ => parse_pk_from 0 s
  end.

(** Modelled from the spec: [forms.py] and the user table are not among the
    sources.  These forms require a name for a Skill and a description for a
    HelpRequest; a TimeSlot form submits its proposer and its skill as keys,
    the skill among the stored ones, with a date and a schedule; two users
    are known to the credential check. *)
Definition sample_SkillForm_clean (st : State) (data : PostData) : option Skill :=
  match post_get "name" data with
  | Some name =>
      if decide (name = "") then None
      else Some (mkSkill None name (default "" (post_get "description" data)))
  | None => None
  end.

Definition sample_HelpRequestForm_clean (st : State) (data : PostData) : option HelpRequest :=
  match post_get "description" data with
  | Some description =>
      if decide (description = "") then None
      else Some (mkHelpRequest (post_get "user" data ≫= parse_pk) description)
  | None => None
  end.

Definition sample_TimeSlotForm_clean (st : State) (data : PostData) : option TimeSlotFields :=
  user ← post_get "user" data ≫= parse_pk;
  skill ← post_get "skill" data ≫= parse_pk;
  _ ← skills st !! skill;
  date ← post_get "date" data ≫= Strptime.parse;
  Some (mkTimeSlotFields (Some user) skill date (default "" (post_get "schedule" data))).

Definition sample_AuthenticationForm_clean (data : PostData) : option (string * string) :=
  username ← post_get "username" data;
  password ← post_get "password" data;
  Some (username, password).

Definition sample_authenticate (username password : string) : option nat :=
  if decide (username = "alice" ∧ password = "wonderland") then Some 1
  else if decide (username = "bob" ∧ password = "builder") then Some 2
  else None.

Definition sample_collaborators : Collaborators := {|
  SkillForm_clean := sample_SkillForm_clean;
  HelpRequestForm_clean := sample_HelpRequestForm_clean;
  TimeSlotForm_clean := sample_TimeSlotForm_clean;
  AuthenticationForm_clean := sample_AuthenticationForm_clean;
  authenticate := sample_authenticate;
  strptime_Ymd := Strptime.parse |}.

(** ** Invariants of the store *)

(** The reservations that reference a slot. *)
Definition reservations_of (st : State) (slot_id : nat) : gmap nat Reservation :=
  filter (λ kv, time_slot kv.2 = slot_id) (reservations st).

(** Every slot that is not available has exactly one reservation. *)
Definition reserved_once (st : State) : Prop :=
  map_Forall (λ pk slot, is_available slot = false → size (reservations_of st pk) = 1)
    (time_slots st).

(** Every slot that is available has no reservation. *)
Definition available_unreserved (st : State) : Prop :=
  map_Forall (λ pk slot, is_available slot = true → size (reservations_of st pk) = 0)
    (time_slots st).

(** Every reservation references a stored slot. *)
Definition references_exist (st : State) : Prop :=
  map_Forall (λ _ r, is_Some (time_slots st !! time_slot r)) (reservations st).

Definition store_consistent (st : State) : Prop :=
  references_exist st ∧ reserved_once st ∧ available_unreserved st.

(** The number of reservations the flag of a slot calls for: none for a key
    that is not stored or an open slot, one for a closed slot. *)
Definition expected_reservations (st : State) (slot_id : nat) : nat :=
  match time_slots st !! slot_id with
  | Some slot => if is_available slot then 0 else 1
  | None => 0
  end.

Global Instance reserved_once_dec st : Decision (reserved_once st).
Proof. unfold reserved_once. apply _. Defined.
Global Instance available_unreserved_dec st : Decision (available_unreserved st).
Proof. unfold available_unreserved. apply _. Defined.
Global Instance references_exist_dec st : Decision (references_exist st).
Proof. unfold references_exist. apply _. Defined.
Global Instance store_consistent_dec st : Decision (store_consistent st).
Proof. unfold store_consistent. apply _. Defined.

(** ** How the store evolves *)

(** A stored slot and what it may have become later: the same slot, but
    possibly closed; a closed slot stays closed. *)
Definition slot_later (old new : TimeSlot) : Prop :=
  slot_user new = slot_user old
  ∧ slot_skill new = slot_skill old
  ∧ slot_date new = slot_date old
  ∧ slot_schedule new = slot_schedule old
  ∧ (is_available old = false → is_available new = false).

(** A later store keeps every row of an earlier one under its key: skills,
    help requests and reservations as they were, slots up to closing. *)
Definition store_later (st st' : State) : Prop :=
  (∀ pk s, skills st !! pk = Some s → skills st' !! pk = Some s)
  ∧ (∀ pk h, help_requests st !! pk = Some h → help_requests st' !! pk = Some h)
  ∧ (∀ pk r, reservations st !! pk = Some r → reservations st' !! pk = Some r)
  ∧ (∀ pk t, time_slots st !! pk = Some t →
       ∃ t', time_slots st' !! pk = Some t' ∧ slot_later t t').

(** The slots a response offers: those on the home page or on the page of
    [find_slots]. *)
Definition offered_slots (response : Response) : gmap nat TimeSlot :=
  match response with
  | Render _ (HomeContext _ timeslots) => timeslots
  | Render _ (FindSlotsContext available_slots _ _ _) => available_slots
  | _ => ∅
  end.

(** ** Sample data *)

Definition new_year : Date := mkDate 2024 1 1.

(** Two skills, an open slot (key 1) and a reserved one (key 2) for the first
    skill, the reservation of the second slot by user 2, and user 2 logged in
    on session 7. *)
Definition sample_state : State := {|
  skills := {[ 1 := mkSkill (Some 1) "Plumbing" "Leaks and taps";
               2 := mkSkill (Some 2) "Baking" "" ]};
  help_requests := ∅;
  time_slots := {[ 1 := mkTimeSlot (Some 1) 1 new_year "10:00-11:00" true;
                   2 := mkTimeSlot (Some 1) 1 new_year "14:00-15:00" false ]};
  reservations := {[ 1 := mkReservation 2 2 ]};
  sessions := {[ 7 := 2 ]} |}.

(** A request of the logged-in session and one of a session nobody logged in
    on. *)
Definition get_request : Request := mkRequest 7 "GET" [].
Definition anonymous_request : Request := mkRequest 8 "GET" [].

(** A store in which the open slot 1 already has a reservation, by user 1;
    user 2 is logged in on session 7. *)
Definition booked_open_state : State := {|
  skills := {[ 1 := mkSkill (Some 1) "Plumbing" "Leaks and taps" ]};
  help_requests := ∅;
  time_slots := {[ 1 := mkTimeSlot (Some 1) 1 new_year "10:00-11:00" true ]};
  reservations := {[ 1 := mkReservation 1 1 ]};
  sessions := {[ 7 := 2 ]} |}.

(** User 2, on session 7, submits a proposition whose form names user 1 as
    the proposer. *)
Definition proposition_request : Request :=
  mkRequest 7 "POST"
    [("user", "1"); ("skill", "1"); ("date", "2024-01-02"); ("schedule", "09:00-10:00")].

Definition skill_request : Request :=
  mkRequest 7 "POST" [("user", "1"); ("name", "Sewing"); ("description", "Hems")].

Definition login_request : Request :=
  mkRequest 8 "POST" [("username", "alice"); ("password", "wonderland")].

(** A login attempt with a wrong password, and a help request submitted on a
    session nobody is logged in on, whose form names user 1. *)
Definition bad_login_request : Request :=
  mkRequest 8 "POST" [("username", "alice"); ("password", "looking-glass")].

Definition help_request_post : Request :=
  mkRequest 8 "POST" [("user", "1"); ("description", "A dripping tap")].

(** A skill form without a name, which the sample form refuses. *)
Definition nameless_skill_request : Request :=
  mkRequest 7 "POST" [("description", "Hems")].

(** * Properties *)

Example strptime_iso : Strptime.parse "2024-01-01" = Some (mkDate 2024 1 1).
Proof. vm_compute. reflexivity. Qed.

Example strptime_one_digit_month : Strptime.parse "2024-2-29" = Some (mkDate 2024 2 29).
Proof. vm_compute. reflexivity. Qed.

Example strptime_not_a_date : Strptime.parse "not-a-date" = None.
Proof. vm_compute. reflexivity. Qed.

Example strptime_no_such_day : Strptime.parse "2023-02-29" = None.
Proof. vm_compute. reflexivity. Qed.

Example strptime_text_left_over : Strptime.parse "2024-01-32" = None.
Proof. vm_compute. reflexivity. Qed.

Example strptime_space_before_day : Strptime.parse "2024-01- 5" = Some (mkDate 2024 1 5).
Proof. vm_compute. reflexivity. Qed.

Example strptime_fullwidth_year : Strptime.parse "２０２４-01-01" = Some (mkDate 2024 1 1).
Proof. vm_compute. reflexivity. Qed.

Example strptime_fullwidth_day_unit : Strptime.parse "2024-01-1５" = Some (mkDate 2024 1 15).
Proof. vm_compute. reflexivity. Qed.

Example strptime_fullwidth_month : Strptime.parse "2024-０1-01" = None.
Proof. vm_compute. reflexivity. Qed.

Example strptime_year_zero : Strptime.parse "0000-01-01" = None.
Proof. vm_compute. reflexivity. Qed.

Example strict_iso_one_digit : strict_iso "2024-1-1" = None.
Proof. vm_compute. reflexivity. Qed.

Example sample_state_consistent : store_consistent sample_state.
Proof. apply (bool_decide_unpack _). vm_compute. exact I. Qed.

(** ** The object-relational layer *)

Lemma next_pk_fresh {A} (table : gmap nat A) : table !! next_pk table = None.
Proof.
  destruct (table !! next_pk table) as [row|] eqn:Hrow; [|reflexivity].
  exfalso.
  apply elem_of_map_to_list in Hrow.
  assert (next_pk table ∈ (map_to_list table).*1) as Hin.
  { apply list_elem_of_fmap. exists (next_pk table, row). split; [reflexivity|exact Hrow]. }
  apply max_list_elem_of_le in Hin. unfold next_pk in Hin. lia.
Qed.

Lemma objects_create_size {A} (row : A) (table : gmap nat A) :
  size (objects_create row table) = S (size table).
Proof. apply map_size_insert_None, next_pk_fresh. Qed.

(** ** reserve_slot *)

Section ReserveSlot.
Context `{Collaborators}.

(** What the view does for a logged-in user and an open slot. *)
Lemma reserve_slot_open st request slot_id user slot :
  request_user st request = Some user →
  time_slots st !! slot_id = Some slot →
  is_available slot = true →
  reserve_slot slot_id st request =
    (mkState (skills st) (help_requests st)
       (<[slot_id := mkTimeSlot (slot_user slot) (slot_skill slot) (slot_date slot)
                       (slot_schedule slot) false]> (time_slots st))
       (<[next_pk (reservations st) := mkReservation slot_id user]> (reservations st))
       (sessions st),
     Redirect "allo_aide:history").
Proof.
  intros Huser Hslot Havail.
  unfold reserve_slot, login_required, reserve_slot_view, get_object_or_404.
  rewrite Huser, Hslot, Havail. reflexivity.
Qed.

(** What the view does for a logged-in user and a closed slot. *)
Lemma reserve_slot_closed st request slot_id user slot :
  request_user st request = Some user →
  time_slots st !! slot_id = Some slot →
  is_available slot = false →
  reserve_slot slot_id st request
    = (st, Render "allo_aide/error.html" (ErrorContext already_reserved_message)).
Proof.
  intros Huser Hslot Havail.
  unfold reserve_slot, login_required, reserve_slot_view, get_object_or_404.
  rewrite Huser, Hslot, Havail. reflexivity.
Qed.

(** The decorator turns every anonymous request away, whatever it names. *)
Lemma login_required_anonymous view st request :
  request_user st request = None →
  login_required view st request = (st, RedirectToLogin).
Proof. intros Huser. unfold login_required. rewrite Huser. reflexivity. Qed.

(** C1: for an authenticated request naming a stored slot whose flag is true,
    [reserve_slot] adds exactly one reservation, of that slot by the current
    user, under a key that was free, sets the slot's flag to false, leaves
    the rest of the store as it was and redirects to the history view. *)
Theorem reserve_slot_creates_one_reservation st request slot_id user slot :
  request_user st request = Some user →
  time_slots st !! slot_id = Some slot →
  is_available slot = true →
  (reserve_slot slot_id st request).2 = Redirect "allo_aide:history"
  ∧ (∃ pk, reservations st !! pk = None
       ∧ reservations (reserve_slot slot_id st request).1
         = <[pk := mkReservation slot_id user]> (reservations st))
  ∧ size (reservations (reserve_slot slot_id st request).1) = S (size (reservations st))
  ∧ time_slots (reserve_slot slot_id st request).1
    = <[slot_id := mkTimeSlot (slot_user slot) (slot_skill slot) (slot_date slot)
                     (slot_schedule slot) false]> (time_slots st)
  ∧ is_available <$> time_slots (reserve_slot slot_id st request).1 !! slot_id = Some false
  ∧ skills (reserve_slot slot_id st request).1 = skills st
  ∧ help_requests (reserve_slot slot_id st request).1 = help_requests st
  ∧ sessions (reserve_slot slot_id st request).1 = sessions st.
Proof.
  intros Huser Hslot Havail.
  rewrite (reserve_slot_open _ _ _ _ _ Huser Hslot Havail). simpl.
  repeat split.
  - exists (next_pk (reservations st)). split; [apply next_pk_fresh|reflexivity].
  - apply map_size_insert_None, next_pk_fresh.
  - rewrite lookup_insert_eq. reflexivity.
Qed.

(** C2: for an authenticated request naming a stored slot whose flag is
    false, [reserve_slot] renders the error page with the already-reserved
    message, which is not empty, and the whole store is as it was: no
    reservation is created. *)
Theorem reserve_slot_conflict st request slot_id user slot :
  request_user st request = Some user →
  time_slots st !! slot_id = Some slot →
  is_available slot = false →
  reserve_slot slot_id st request
    = (st, Render "allo_aide/error.html" (ErrorContext "Ce créneau est déjà réservé."))
  ∧ already_reserved_message ≠ ""
  ∧ reservations (reserve_slot slot_id st request).1 = reservations st.
Proof.
  intros Huser Hslot Havail.
  rewrite (reserve_slot_closed _ _ _ _ _ Huser Hslot Havail).
  repeat split. discriminate.
Qed.

(** Once a slot is reserved, a second request for it, by any logged-in
    session, meets the closed slot: it is answered with the error page and
    stores nothing. *)
Lemma reserve_slot_twice st request request' slot_id user user' slot :
  request_user st request = Some user →
  request_user st request' = Some user' →
  time_slots st !! slot_id = Some slot →
  is_available slot = true →
  reserve_slot slot_id (reserve_slot slot_id st request).1 request'
    = ((reserve_slot slot_id st request).1,
       Render "allo_aide/error.html" (ErrorContext already_reserved_message)).
Proof.
  intros Huser Huser' Hslot Havail.
  rewrite (reserve_slot_open _ _ _ _ _ Huser Hslot Havail). simpl.
  eapply reserve_slot_closed.
  - exact Huser'.
  - simpl. apply lookup_insert_eq.
  - reflexivity.
Qed.

(** C6, as amended: an authenticated [reserve_slot] request naming no stored
    slot is answered not-found; no [reserve_slot] request naming no stored
    slot changes the store, so none creates a reservation; and [find_slots]
    answers not-found, leaving the store alone, when its skill is not
    stored. *)
Theorem missing_object_not_found st request slot_id skill_id date :
  (time_slots st !! slot_id = None →
     (is_Some (request_user st request) → reserve_slot slot_id st request = (st, Http404))
     ∧ (reserve_slot slot_id st request).1 = st)
  ∧ (skills st !! skill_id = None → find_slots skill_id date st request = (st, Http404)).
Proof.
  split.
  - intros Hslot. unfold reserve_slot, login_required, reserve_slot_view, get_object_or_404.
    rewrite Hslot. split.
    + intros [user Huser]. rewrite Huser. reflexivity.
    + destruct (request_user st request); reflexivity.
  - intros Hskill. unfold find_slots, get_object_or_404. rewrite Hskill. reflexivity.
Qed.

End ReserveSlot.

Lemma reserve_slot_creates_one_reservation_witness :
  (reserve_slot 1 sample_state get_request).2 = Redirect "allo_aide:history"
  ∧ (∃ pk, reservations sample_state !! pk = None
       ∧ reservations (reserve_slot 1 sample_state get_request).1
         = <[pk := mkReservation 1 2]> (reservations sample_state))
  ∧ size (reservations (reserve_slot 1 sample_state get_request).1)
    = S (size (reservations sample_state))
  ∧ time_slots (reserve_slot 1 sample_state get_request).1
    = <[1 := mkTimeSlot (Some 1) 1 new_year "10:00-11:00" false]> (time_slots sample_state)
  ∧ is_available <$> time_slots (reserve_slot 1 sample_state get_request).1 !! 1 = Some false
  ∧ skills (reserve_slot 1 sample_state get_request).1 = skills sample_state
  ∧ help_requests (reserve_slot 1 sample_state get_request).1 = help_requests sample_state
  ∧ sessions (reserve_slot 1 sample_state get_request).1 = sessions sample_state.
Proof.
  apply (reserve_slot_creates_one_reservation sample_state get_request 1 2
           (mkTimeSlot (Some 1) 1 new_year "10:00-11:00" true)).
  - vm_compute. reflexivity.
  - vm_compute. reflexivity.
  - reflexivity.
Defined.

Lemma reserve_slot_conflict_witness :
  reserve_slot 2 sample_state get_request
    = (sample_state, Render "allo_aide/error.html" (ErrorContext "Ce créneau est déjà réservé."))
  ∧ already_reserved_message ≠ ""
  ∧ reservations (reserve_slot 2 sample_state get_request).1 = reservations sample_state.
Proof.
  apply (reserve_slot_conflict sample_state get_request 2 2
           (mkTimeSlot (Some 1) 1 new_year "14:00-15:00" false)).
  - vm_compute. reflexivity.
  - vm_compute. reflexivity.
  - reflexivity.
Defined.

(** C6, as first stated, fails: slot 9 is not stored, and the request of a
    session nobody is logged in on is redirected to the login view, not
    answered not-found. *)
Lemma reserve_slot_missing_anonymous :
  time_slots sample_state !! 9 = None
  ∧ request_user sample_state anonymous_request = None
  ∧ (reserve_slot 9 sample_state anonymous_request).2 = RedirectToLogin
  ∧ (reserve_slot 9 sample_state anonymous_request).2 ≠ Http404.
Proof. vm_compute. repeat split. discriminate. Qed.

Lemma missing_object_not_found_witness :
  (reserve_slot 9 sample_state get_request = (sample_state, Http404)
   ∧ (reserve_slot 9 sample_state get_request).1 = sample_state)
  ∧ find_slots (H:=sample_collaborators) 5 "2024-01-01" sample_state get_request
    = (sample_state, Http404).
Proof.
  pose proof (missing_object_not_found (H:=sample_collaborators)
                sample_state get_request 9 5 "2024-01-01") as [Hslot Hskill].
  split.
  - destruct Hslot as [Hfound Hsame]; [vm_compute; reflexivity|].
    split; [|exact Hsame].
    apply Hfound. exists 2. vm_compute. reflexivity.
  - apply Hskill. vm_compute. reflexivity.
Defined.

(** ** The read-only views *)

Section ReadOnlyViews.
Context `{Collaborators}.

(** C9: for every request, logged in or not, [home] renders the home page
    with all stored skills and exactly the stored slots whose flag is true
    (none when there are none), and the store is as it was. *)
Theorem home_lists_skills_and_open_slots st request :
  ∃ timeslots,
    home st request = (st, Render "allo_aide/home.html" (HomeContext (skills st) timeslots))
    ∧ (∀ pk slot, timeslots !! pk = Some slot
         ↔ time_slots st !! pk = Some slot ∧ is_available slot = true)
    ∧ (skills st = ∅ → time_slots st = ∅ →
         home st request = (st, Render "allo_aide/home.html" (HomeContext ∅ ∅)))
    ∧ dispatch Route_home st request = home st request.
Proof.
  exists (filter (λ kv, is_available kv.2 = true) (time_slots st)).
  split; [reflexivity|]. split; [|split; [|reflexivity]].
  - intros pk slot. rewrite map_lookup_filter_Some. reflexivity.
  - intros Hskills Hslots. unfold home. rewrite Hskills, Hslots.
    rewrite map_filter_empty. reflexivity.
Qed.

(** C8: for an authenticated request, [history] renders the history page with
    exactly the stored reservations of the current user, under their keys,
    each carrying the slot it references and that slot's skill; the page is
    empty when the user has no reservation, and the store is as it was. *)
Theorem history_lists_own_reservations st request user :
  request_user st request = Some user →
  ∃ rows,
    history st request = (st, Render "allo_aide/history.html" (HistoryContext rows))
    ∧ (∀ pk row, rows !! pk = Some row
         ↔ ∃ r, reservations st !! pk = Some r ∧ reservation_user r = user
                ∧ row = mkReservationRow r (time_slots st !! time_slot r)
                          (time_slots st !! time_slot r ≫= λ s, skills st !! slot_skill s))
    ∧ (∀ pk row slot skill, rows !! pk = Some row →
         time_slots st !! time_slot (row_reservation row) = Some slot →
         skills st !! slot_skill slot = Some skill →
         row_time_slot row = Some slot ∧ row_skill row = Some skill)
    ∧ ((∀ pk r, reservations st !! pk = Some r → reservation_user r ≠ user) → rows = ∅).
Proof.
  intros Huser.
  exists (select_related st <$> filter (λ kv, reservation_user kv.2 = user) (reservations st)).
  assert (∀ pk row,
    (select_related st <$> filter (λ kv, reservation_user kv.2 = user) (reservations st))
      !! pk = Some row
    ↔ ∃ r, reservations st !! pk = Some r ∧ reservation_user r = user
           ∧ row = select_related st r) as Hrows.
  { intros pk row. rewrite lookup_fmap, fmap_Some. split.
    - intros (r & Hr & ->). apply map_lookup_filter_Some in Hr as [Hr Hu]. eauto.
    - intros (r & Hr & Hu & ->). exists r. split; [|reflexivity].
      apply map_lookup_filter_Some. split; assumption. }
  split; [|split; [|split]].
  - unfold history, login_required, history_view. rewrite Huser. reflexivity.
  - exact Hrows.
  - intros pk row slot skill Hrow Hslot Hskill.
    apply Hrows in Hrow as (r & _ & _ & ->). simpl in *.
    rewrite Hslot. simpl. split; [reflexivity|exact Hskill].
  - intros Hnone. apply map_empty. intros pk.
    destruct (_ !! pk) as [row|] eqn:Hrow; [|reflexivity].
    apply Hrows in Hrow as (r & Hr & Hu & _). exfalso. exact (Hnone pk r Hr Hu).
Qed.

(** What [find_slots] makes of the answer of the date parser, whichever
    parser the collaborators give: the message and no slot when it refuses,
    no message and the open slots of the skill on the date when it accepts. *)
Lemma find_slots_by_parser st request skill_id date skill :
  skills st !! skill_id = Some skill →
  (strptime_Ymd date = None →
     find_slots skill_id date st request
       = (st, Render "allo_aide/find_slots.html"
                (FindSlotsContext ∅ skill None (Some invalid_date_message)))
     ∧ invalid_date_message ≠ "")
  ∧ (∀ d, strptime_Ymd date = Some d →
       ∃ available_slots,
         find_slots skill_id date st request
           = (st, Render "allo_aide/find_slots.html"
                    (FindSlotsContext available_slots skill (Some d) None))
         ∧ (∀ pk slot, available_slots !! pk = Some slot
              ↔ time_slots st !! pk = Some slot ∧ slot_skill slot = skill_id
                ∧ slot_date slot = d ∧ is_available slot = true)
         ∧ ((∀ pk slot, time_slots st !! pk = Some slot →
               ¬ (slot_skill slot = skill_id ∧ slot_date slot = d
                  ∧ is_available slot = true)) →
            available_slots = ∅)).
Proof.
  intros Hskill. split.
  - intros Hparse. unfold find_slots, get_object_or_404. rewrite Hskill, Hparse.
    split; [reflexivity|discriminate].
  - intros d Hparse.
    exists (filter (λ kv, slot_skill kv.2 = skill_id ∧ slot_date kv.2 = d
                          ∧ is_available kv.2 = true) (time_slots st)).
    split; [|split].
    + unfold find_slots, get_object_or_404. rewrite Hskill, Hparse. reflexivity.
    + intros pk slot. rewrite map_lookup_filter_Some. reflexivity.
    + intros Hnone. apply map_empty_filter. intros pk slot Hslot. simpl.
      exact (Hnone pk slot Hslot).
Qed.

End ReadOnlyViews.

Lemma history_lists_own_reservations_witness :
  ∃ rows,
    history sample_state get_request
      = (sample_state, Render "allo_aide/history.html" (HistoryContext rows))
    ∧ rows !! 1 = Some (mkReservationRow (mkReservation 2 2)
                          (Some (mkTimeSlot (Some 1) 1 new_year "14:00-15:00" false))
                          (Some (mkSkill (Some 1) "Plumbing" "Leaks and taps"))).
Proof.
  destruct (history_lists_own_reservations sample_state get_request 2)
    as (rows & Hpage & Hrows & _); [vm_compute; reflexivity|].
  exists rows. split; [exact Hpage|].
  apply Hrows. exists (mkReservation 2 2).
  split; [vm_compute; reflexivity|]. split; [reflexivity|].
  vm_compute. reflexivity.
Defined.


(** ** The date text of find_slots *)

Lemma ascii_digit_range c n :
  ascii_digit c = Some n →
  (48 ≤ N_of_ascii c ≤ 57)%N ∧ n = N.to_nat (N_of_ascii c - 48).
Proof.
  unfold ascii_digit. cbv zeta. case_decide; [|discriminate].
  intros [= <-]. split; [assumption|reflexivity].
Qed.

Lemma decode_utf8_ascii a s :
  (N_of_ascii a < 128)%N →
  Strptime.decode_utf8 (String a s) = cons (N_of_ascii a) <$> Strptime.decode_utf8 s.
Proof.
  intros Hlow. cbn [Strptime.decode_utf8]. cbv zeta.
  rewrite decide_True by exact Hlow. reflexivity.
Qed.

Lemma days_in_month_le y m : Strptime.days_in_month y m ≤ 31.
Proof.
  unfold Strptime.days_in_month.
  do 12 (destruct m as [|m]; [destruct (Strptime.is_leap y); lia|]). lia.
Qed.

Ltac split_digit c :=
  let H := fresh "Hdigit" in
  assert (c = 48 ∨ c = 49 ∨ c = 50 ∨ c = 51 ∨ c = 52 ∨ c = 53 ∨ c = 54 ∨ c = 55
          ∨ c = 56 ∨ c = 57)%N as H by lia;
  repeat (destruct H as [H|H]); subst c.

(** A month written with two digits is read by the month group, whatever
    follows in the pattern. *)
Lemma month_group_two_digits {A} (k : nat → list N → option A) a b rest r :
  (48 ≤ a ≤ 57)%N → (48 ≤ b ≤ 57)%N →
  1 ≤ 10 * N.to_nat (a - 48) + N.to_nat (b - 48) ≤ 12 →
  k (10 * N.to_nat (a - 48) + N.to_nat (b - 48)) rest = Some r →
  Strptime.month_group k (a :: b :: rest) = Some r.
Proof.
  intros Ha Hb Hmonth Hk.
  split_digit a; split_digit b; try lia.
  all: vm_compute in Hk; vm_compute; rewrite Hk; reflexivity.
Qed.

(** A day written with two digits is read whole by the day group. *)
Lemma day_group_two_digits decimal a b rest :
  (∀ c, (48 ≤ c ≤ 57)%N → decimal c = Some (N.to_nat (c - 48))) →
  (48 ≤ a ≤ 57)%N → (48 ≤ b ≤ 57)%N →
  1 ≤ 10 * N.to_nat (a - 48) + N.to_nat (b - 48) ≤ 31 →
  Strptime.day_group decimal (a :: b :: rest)
  = Some (10 * N.to_nat (a - 48) + N.to_nat (b - 48), rest).
Proof.
  intros Hdecimal Ha Hb Hday.
  split_digit a; split_digit b; try lia.
  all: cbn [Strptime.day_group Strptime.first_match Strptime.two_points];
    rewrite ?Hdecimal by lia; vm_compute; reflexivity.
Qed.

(** Every date written strictly as YYYY-MM-DD is accepted, as the date it
    names. *)
Lemma strict_iso_strptime decimal text d :
  (∀ c, (48 ≤ c ≤ 57)%N → decimal c = Some (N.to_nat (c - 48))) →
  strict_iso text = Some d →
  Strptime.strptime decimal text = Some d.
Proof.
  intros Hdecimal Hstrict. unfold strict_iso in Hstrict.
  destruct text as [|y1 [|y2 [|y3 [|y4 [|h1 [|m1 [|m2 [|h2 [|d1 [|d2 [|]]]]]]]]]]];
    try discriminate Hstrict.
  destruct (ascii_digit y1) as [a|] eqn:Hy1; [|discriminate Hstrict].
  destruct (ascii_digit y2) as [b|] eqn:Hy2; [|discriminate Hstrict].
  destruct (ascii_digit y3) as [c|] eqn:Hy3; [|discriminate Hstrict].
  destruct (ascii_digit y4) as [e|] eqn:Hy4; [|discriminate Hstrict].
  destruct (ascii_digit m1) as [f|] eqn:Hm1; [|discriminate Hstrict].
  destruct (ascii_digit m2) as [g|] eqn:Hm2; [|discriminate Hstrict].
  destruct (ascii_digit d1) as [i|] eqn:Hd1; [|discriminate Hstrict].
  destruct (ascii_digit d2) as [j|] eqn:Hd2; [|discriminate Hstrict].
  cbv zeta in Hstrict.
  destruct (decide (h1 = "-"%char ∧ h2 = "-"%char)) as [[-> ->]|]; [|discriminate Hstrict].
  destruct (Strptime.valid_date _ _ _) eqn:Hvalid; [|discriminate Hstrict].
  injection Hstrict as <-.
  apply ascii_digit_range in Hy1 as [Ry1 ->], Hy2 as [Ry2 ->], Hy3 as [Ry3 ->],
    Hy4 as [Ry4 ->], Hm1 as [Rm1 ->], Hm2 as [Rm2 ->], Hd1 as [Rd1 ->], Hd2 as [Rd2 ->].
  pose proof Hvalid as Hrange. apply bool_decide_eq_true in Hrange.
  destruct Hrange as (_ & Hmonth & Hday).
  pose proof (days_in_month_le
                (1000 * N.to_nat (N_of_ascii y1 - 48) + 100 * N.to_nat (N_of_ascii y2 - 48)
                 + 10 * N.to_nat (N_of_ascii y3 - 48) + N.to_nat (N_of_ascii y4 - 48))
                (10 * N.to_nat (N_of_ascii m1 - 48) + N.to_nat (N_of_ascii m2 - 48)))
    as Hlength.
  unfold Strptime.strptime.
  rewrite !decode_utf8_ascii by (first [lia|reflexivity]).
  change (N_of_ascii "-") with 45%N.
  cbn [Strptime.decode_utf8 fmap option_fmap option_map mbind option_bind].
  unfold Strptime.format_regex. cbn [Strptime.year_group].
  rewrite !Hdecimal by assumption.
  cbn [Strptime.literal]. rewrite decide_True by reflexivity.
  erewrite month_group_two_digits; [| assumption | assumption | exact Hmonth |].
  2: { cbn [Strptime.literal]. rewrite decide_True by reflexivity.
       rewrite (day_group_two_digits decimal) by (first [assumption|lia]).
       reflexivity. }
  cbv beta iota. rewrite Hvalid. reflexivity.
Qed.

(** Whatever is accepted names a day of the calendar. *)
Lemma strptime_valid_date decimal text d :
  Strptime.strptime decimal text = Some d →
  Strptime.valid_date (year d) (month d) (day d) = true.
Proof.
  unfold Strptime.strptime.
  destruct (_ ≫= _) as [[[[y m] dd] [|]]|]; try discriminate.
  destruct (Strptime.valid_date y m dd) eqn:Hvalid; [|discriminate].
  intros [= <-]. exact Hvalid.
Qed.

Lemma unicode_decimal_ascii c :
  (48 ≤ c ≤ 57)%N → Strptime.unicode_decimal c = Some (N.to_nat (c - 48)).
Proof. intros Hc. split_digit c; vm_compute; reflexivity. Qed.

Section FindSlotsDate.
Context `{Collaborators}.
Variable decimal : N → option nat.
Hypothesis decimal_ascii : ∀ c, (48 ≤ c ≤ 57)%N → decimal c = Some (N.to_nat (c - 48)).
Hypothesis strptime_Ymd_spec : ∀ text, strptime_Ymd text = Strptime.strptime decimal text.

(** C5, as amended: the date parser of [find_slots] is [strptime] with the
    format [%Y-%m-%d], over any table of decimal digits that has the ASCII
    ones.  When the skill is stored, [find_slots] never fails: if [strptime]
    refuses the date text, the page carries the invalid-date message, which
    is not empty, and no slot; if it accepts, the text names a day of the
    calendar and the page carries no message and exactly the stored slots of
    that skill on that day whose flag is true (none when none match).  Every
    date written strictly as YYYY-MM-DD is accepted, as the date it names.
    The store is as it was. *)
Theorem find_slots_strptime st request skill_id date skill :
  skills st !! skill_id = Some skill →
  (Strptime.strptime decimal date = None →
     find_slots skill_id date st request
       = (st, Render "allo_aide/find_slots.html"
                (FindSlotsContext ∅ skill None (Some invalid_date_message)))
     ∧ invalid_date_message ≠ "")
  ∧ (∀ d, Strptime.strptime decimal date = Some d →
       Strptime.valid_date (year d) (month d) (day d) = true
       ∧ ∃ available_slots,
           find_slots skill_id date st request
             = (st, Render "allo_aide/find_slots.html"
                      (FindSlotsContext available_slots skill (Some d) None))
           ∧ (∀ pk slot, available_slots !! pk = Some slot
                ↔ time_slots st !! pk = Some slot ∧ slot_skill slot = skill_id
                  ∧ slot_date slot = d ∧ is_available slot = true)
           ∧ ((∀ pk slot, time_slots st !! pk = Some slot →
                 ¬ (slot_skill slot = skill_id ∧ slot_date slot = d
                    ∧ is_available slot = true)) →
              available_slots = ∅))
  ∧ (∀ d, strict_iso date = Some d → Strptime.strptime decimal date = Some d).
Proof.
  intros Hskill.
  destruct (find_slots_by_parser st request skill_id date skill Hskill)
    as [Hrefused Haccepted].
  split; [|split].
  - intros Hparse. apply Hrefused. rewrite strptime_Ymd_spec. exact Hparse.
  - intros d Hparse. split.
    + exact (strptime_valid_date _ _ _ Hparse).
    + apply Haccepted. rewrite strptime_Ymd_spec. exact Hparse.
  - intros d. apply strict_iso_strptime, decimal_ascii.
Qed.

End FindSlotsDate.

Lemma find_slots_strptime_witness :
  find_slots (H:=sample_collaborators) 1 "not-a-date" sample_state get_request
    = (sample_state, Render "allo_aide/find_slots.html"
         (FindSlotsContext ∅ (mkSkill (Some 1) "Plumbing" "Leaks and taps") None
            (Some invalid_date_message)))
  ∧ ∃ available_slots,
      find_slots (H:=sample_collaborators) 1 "2024-01-01" sample_state get_request
        = (sample_state, Render "allo_aide/find_slots.html"
             (FindSlotsContext available_slots (mkSkill (Some 1) "Plumbing" "Leaks and taps")
                (Some new_year) None))
      ∧ available_slots !! 1 = Some (mkTimeSlot (Some 1) 1 new_year "10:00-11:00" true)
      ∧ available_slots !! 2 = None.
Proof.
  split.
  - apply (find_slots_strptime (H:=sample_collaborators) Strptime.unicode_decimal
             unicode_decimal_ascii (λ text, eq_refl) sample_state get_request 1
             "not-a-date" (mkSkill (Some 1) "Plumbing" "Leaks and taps")).
    + vm_compute. reflexivity.
    + vm_compute. reflexivity.
  - destruct (find_slots_strptime (H:=sample_collaborators) Strptime.unicode_decimal
                unicode_decimal_ascii (λ text, eq_refl) sample_state get_request 1
                "2024-01-01" (mkSkill (Some 1) "Plumbing" "Leaks and taps"))
      as (_ & Haccepted & Hstrict); [vm_compute; reflexivity|].
    destruct (Haccepted new_year) as (_ & slots & Hpage & Hslots & _).
    { apply Hstrict. vm_compute. reflexivity. }
    exists slots. split; [exact Hpage|]. split.
    + apply Hslots. vm_compute. repeat split.
    + destruct (slots !! 2) as [slot|] eqn:Hslot; [|reflexivity].
      apply Hslots in Hslot as (Hstored & _ & _ & Havail).
      vm_compute in Hstored. injection Hstored as <-. discriminate Havail.
Defined.

(** C5, as first stated, fails: these two texts are not dates written
    strictly as YYYY-MM-DD, one for its one-digit month and day and one for
    the space before its day, yet [strptime] accepts both as the first of
    January 2024, and [find_slots] shows no message and lists the open slot
    of that day. *)
Lemma find_slots_accepts_loose_date :
  strict_iso "2024-1-1" = None
  ∧ find_slots (H:=sample_collaborators) 1 "2024-1-1" sample_state get_request
    = (sample_state, Render "allo_aide/find_slots.html"
         (FindSlotsContext {[ 1 := mkTimeSlot (Some 1) 1 new_year "10:00-11:00" true ]}
            (mkSkill (Some 1) "Plumbing" "Leaks and taps") (Some new_year) None))
  ∧ strict_iso "2024-01- 1" = None
  ∧ find_slots (H:=sample_collaborators) 1 "2024-01- 1" sample_state get_request
    = (sample_state, Render "allo_aide/find_slots.html"
         (FindSlotsContext {[ 1 := mkTimeSlot (Some 1) 1 new_year "10:00-11:00" true ]}
            (mkSkill (Some 1) "Plumbing" "Leaks and taps") (Some new_year) None)).
Proof. vm_compute. repeat split. Qed.

(** ** The creation views *)

Section CreationViews.
Context `{Collaborators}.

(** The owner of a new skill is the user of the session, whatever the form
    gave. *)
Lemma new_skill_owner_is_session_user st request user new_skill :
  method request = "POST" →
  SkillForm_clean st (POST request) = Some new_skill →
  request_user st request = Some user →
  create_new_skill st request
    = (set_skills (objects_create
         (mkSkill (Some user) (skill_name new_skill) (skill_description new_skill))) st,
       Redirect "allo_aide:home_user").
Proof.
  intros Hmethod Hvalid Huser. unfold create_new_skill.
  rewrite decide_True by exact Hmethod. rewrite Hvalid, Huser. reflexivity.
Qed.

(** The owner of a new slot is the one the form gave, whoever is logged in. *)
Lemma new_slot_owner_is_submitted st request fields :
  method request = "POST" →
  TimeSlotForm_clean st (POST request) = Some fields →
  create_new_proposition st request
    = (set_time_slots (objects_create (TimeSlotForm_instance fields)) st,
       Redirect "allo_aide:home_user")
  ∧ slot_user (TimeSlotForm_instance fields) = form_slot_user fields.
Proof.
  intros Hmethod Hvalid. unfold create_new_proposition.
  rewrite decide_True by exact Hmethod. rewrite Hvalid. split; reflexivity.
Qed.

(** A creation view asked with another method than POST renders the empty
    form and leaves the store alone. *)
Lemma creation_views_not_POST st request :
  method request ≠ "POST" →
  create_new_skill st request
    = (st, Render "allo_aide/create_new_skill.html" (FormContext UnboundForm))
  ∧ create_new_request st request
    = (st, Render "allo_aide/create_new_demande.html" (FormContext UnboundForm))
  ∧ create_new_proposition st request
    = (st, Render "allo_aide/create_new_proposition.html" (FormContext UnboundForm)).
Proof.
  intros Hmethod. unfold create_new_skill, create_new_request, create_new_proposition.
  rewrite !decide_False by exact Hmethod. repeat split.
Qed.

(** C10: [reserve_slot] does not look at the method: for a logged-in session
    and an open slot the reservation is created and the slot closed whatever
    the method and the form data, as for a GET.  The three creation views
    render the empty form and leave the store alone for every method but
    POST, so they change the store on POST only. *)
Theorem reserve_slot_any_method_creation_POST_only st :
  (∀ key user slot_id slot m data,
     sessions st !! key = Some user →
     time_slots st !! slot_id = Some slot →
     is_available slot = true →
     reserve_slot slot_id st (mkRequest key m data)
       = reserve_slot slot_id st (mkRequest key "GET" [])
     ∧ reservations (reserve_slot slot_id st (mkRequest key m data)).1
       = <[next_pk (reservations st) := mkReservation slot_id user]> (reservations st)
     ∧ is_available <$> time_slots (reserve_slot slot_id st (mkRequest key m data)).1 !! slot_id
       = Some false)
  ∧ (∀ request, method request ≠ "POST" →
       create_new_skill st request
         = (st, Render "allo_aide/create_new_skill.html" (FormContext UnboundForm))
       ∧ create_new_request st request
         = (st, Render "allo_aide/create_new_demande.html" (FormContext UnboundForm))
       ∧ create_new_proposition st request
         = (st, Render "allo_aide/create_new_proposition.html" (FormContext UnboundForm)))
  ∧ (∀ request,
       (create_new_skill st request).1 ≠ st
       ∨ (create_new_request st request).1 ≠ st
       ∨ (create_new_proposition st request).1 ≠ st →
       method request = "POST").
Proof.
  split; [|split].
  - intros key user slot_id slot m data Huser Hslot Havail.
    rewrite !(reserve_slot_open st _ slot_id user slot) by assumption.
    simpl. rewrite lookup_insert_eq. repeat split.
  - apply creation_views_not_POST.
  - intros request Hchanged.
    destruct (decide (method request = "POST")) as [Hmethod|Hmethod]; [exact Hmethod|].
    destruct (creation_views_not_POST st request Hmethod) as (Hs & Hr & Hp).
    rewrite Hs, Hr, Hp in Hchanged. simpl in Hchanged.
    destruct Hchanged as [Hc|[Hc|Hc]]; contradiction.
Qed.

End CreationViews.

(** C4 fails on the code for new slots: user 2 is logged in on session 7 and
    submits a valid proposition whose form names user 1; the slot is stored,
    under the free key 3, with user 1 as its owner.  A valid skill submitted
    on the same session, whose form data also names user 1, is stored with
    user 2 as its owner. *)
Theorem create_new_proposition_owner_from_form :
  request_user sample_state proposition_request = Some 2
  ∧ time_slots sample_state !! 3 = None
  ∧ create_new_proposition (H:=sample_collaborators) sample_state proposition_request
    = (set_time_slots
         (insert 3 (mkTimeSlot (Some 1) 1 (mkDate 2024 1 2) "09:00-10:00" true)) sample_state,
       Redirect "allo_aide:home_user")
  ∧ create_new_skill (H:=sample_collaborators) sample_state skill_request
    = (set_skills (insert 3 (mkSkill (Some 2) "Sewing" "Hems")) sample_state,
       Redirect "allo_aide:home_user").
Proof. vm_compute. repeat split. Qed.

Lemma reserve_slot_any_method_creation_POST_only_witness :
  (reserve_slot 1 sample_state (mkRequest 7 "DELETE" [("x", "y")])
     = reserve_slot 1 sample_state (mkRequest 7 "GET" [])
   ∧ reservations (reserve_slot 1 sample_state (mkRequest 7 "DELETE" [("x", "y")])).1
     = <[next_pk (reservations sample_state) := mkReservation 1 2]> (reservations sample_state)
   ∧ is_available
       <$> time_slots (reserve_slot 1 sample_state (mkRequest 7 "DELETE" [("x", "y")])).1 !! 1
     = Some false)
  ∧ create_new_proposition (H:=sample_collaborators) sample_state
      (mkRequest 7 "GET" (POST proposition_request))
    = (sample_state,
       Render "allo_aide/create_new_proposition.html" (FormContext UnboundForm)).
Proof.
  destruct (reserve_slot_any_method_creation_POST_only (H:=sample_collaborators) sample_state)
    as (Hreserve & Hcreate & _).
  split.
  - apply (Hreserve 7 2 1 (mkTimeSlot (Some 1) 1 new_year "10:00-11:00" true)).
    + vm_compute. reflexivity.
    + vm_compute. reflexivity.
    + reflexivity.
  - apply Hcreate. simpl. discriminate.
Defined.

(** ** Sessions *)

Section Sessions.
Context `{Collaborators}.




End Sessions.


(** ** The reservation invariant *)

Lemma store_consistent_counts st :
  store_consistent st
  ↔ ∀ pk, size (reservations_of st pk) = expected_reservations st pk.
Proof.
  unfold expected_reservations. split.
  - intros (Hrefs & Honce & Hfree) pk.
    destruct (time_slots st !! pk) as [slot|] eqn:Hslot.
    + destruct (is_available slot) eqn:Havail.
      * exact (Hfree pk slot Hslot Havail).
      * exact (Honce pk slot Hslot Havail).
    + apply map_size_empty_iff, map_empty_filter. intros k r Hr Hpk. simpl in Hpk.
      destruct (Hrefs k r Hr) as [slot Hstored]. congruence.
  - intros Hcount. split; [|split].
    + intros k r Hr. simpl.
      destruct (time_slots st !! time_slot r) as [slot|] eqn:Hslot; [eauto|].
      exfalso. specialize (Hcount (time_slot r)). rewrite Hslot in Hcount.
      apply map_size_empty_iff in Hcount.
      exact (map_empty_filter_1 _ _ Hcount k r Hr eq_refl).
    + intros pk slot Hslot Havail. specialize (Hcount pk).
      rewrite Hslot, Havail in Hcount. exact Hcount.
    + intros pk slot Hslot Havail. specialize (Hcount pk).
      rewrite Hslot, Havail in Hcount. exact Hcount.
Qed.

(** A reservation stored under a free key adds one to the count of its slot
    and nothing to the others. *)
Lemma reservations_of_insert st st' key r pk :
  reservations st !! key = None →
  reservations st' = <[key := r]> (reservations st) →
  size (reservations_of st' pk)
  = if decide (time_slot r = pk) then S (size (reservations_of st pk))
    else size (reservations_of st pk).
Proof.
  intros Hfree Hres. unfold reservations_of. rewrite Hres.
  case_decide as Hpk.
  - rewrite map_filter_insert_True by exact Hpk.
    apply map_size_insert_None. apply map_lookup_filter_None. left. exact Hfree.
  - rewrite map_filter_insert_not'; [reflexivity|exact Hpk|].
    intros r' Hr'. congruence.
Qed.

Section Invariant.
Context `{Collaborators}.

(** What a request can do to the slots and the reservations: nothing, or
    reserve an open slot, or store a new open slot. *)
Lemma dispatch_effect route st request :
  (time_slots (dispatch route st request).1 = time_slots st
   ∧ reservations (dispatch route st request).1 = reservations st)
  ∨ (∃ slot_id user slot,
       route = Route_reserve_slot slot_id
       ∧ request_user st request = Some user
       ∧ time_slots st !! slot_id = Some slot
       ∧ is_available slot = true
       ∧ time_slots (dispatch route st request).1
         = <[slot_id := mkTimeSlot (slot_user slot) (slot_skill slot) (slot_date slot)
                          (slot_schedule slot) false]> (time_slots st)
       ∧ reservations (dispatch route st request).1
         = <[next_pk (reservations st) := mkReservation slot_id user]> (reservations st))
  ∨ (∃ fields,
       route = Route_create_new_proposition
       ∧ time_slots (dispatch route st request).1
         = <[next_pk (time_slots st) := TimeSlotForm_instance fields]> (time_slots st)
       ∧ reservations (dispatch route st request).1 = reservations st).
Proof.
  destruct route; unfold dispatch.
  - left. split; reflexivity.
  - left. unfold home_user. case_match; split; reflexivity.
  - left. unfold login_view. repeat case_match; split; reflexivity.
  - left. split; reflexivity.
  - left. unfold create_new_skill. repeat case_match; split; reflexivity.
  - left. unfold create_new_request. repeat case_match; split; reflexivity.
  - unfold create_new_proposition.
    destruct (decide (method request = "POST")); [|left; split; reflexivity].
    destruct (TimeSlotForm_clean st (POST request)) as [fields|];
      [|left; split; reflexivity].
    right. right. exists fields. repeat split.
  - left. unfold find_slots. repeat case_match; split; reflexivity.
  - destruct (request_user st request) as [user|] eqn:Huser;
      [|left; unfold reserve_slot;
        rewrite (login_required_anonymous _ _ _ Huser); split; reflexivity].
    destruct (time_slots st !! slot_id) as [slot|] eqn:Hslot.
    + destruct (is_available slot) eqn:Havail.
      * right. left. exists slot_id, user, slot.
        rewrite (reserve_slot_open _ _ _ _ _ Huser Hslot Havail).
        repeat split; assumption.
      * left. rewrite (reserve_slot_closed _ _ _ _ _ Huser Hslot Havail).
        split; reflexivity.
    + left. unfold reserve_slot, login_required, reserve_slot_view, get_object_or_404.
      rewrite Huser, Hslot. split; reflexivity.
  - left. unfold history, login_required, history_view. repeat case_match; split; reflexivity.
Qed.

Lemma dispatch_consistent route st request :
  store_consistent st → store_consistent (dispatch route st request).1.
Proof.
  rewrite !store_consistent_counts. intros Hcount pk.
  destruct (dispatch_effect route st request)
    as [[Hslots Hres]|[(slot_id & user & slot & _ & _ & Hslot & Havail & Hslots & Hres)
                      |(fields & _ & Hslots & Hres)]].
  - unfold reservations_of, expected_reservations in *. rewrite Hslots, Hres. apply Hcount.
  - rewrite (reservations_of_insert st _ _ _ pk (next_pk_fresh _) Hres). simpl.
    unfold expected_reservations. rewrite Hslots.
    pose proof (Hcount pk) as Hpk. unfold expected_reservations in Hpk.
    case_decide as Heq.
    + subst pk. rewrite lookup_insert_eq. simpl.
      rewrite Hslot, Havail in Hpk. rewrite Hpk. reflexivity.
    + rewrite lookup_insert_ne by exact Heq. exact Hpk.
  - unfold reservations_of, expected_reservations in *. rewrite Hslots, Hres.
    destruct (decide (next_pk (time_slots st) = pk)) as [<-|Hne].
    + rewrite lookup_insert_eq. simpl.
      specialize (Hcount (next_pk (time_slots st))).
      rewrite next_pk_fresh in Hcount. exact Hcount.
    + rewrite lookup_insert_ne by exact Hne. apply Hcount.
Qed.

Lemma run_consistent requests st :
  store_consistent st → store_consistent (run requests st).
Proof.
  revert st. induction requests as [|[route request] rest IH]; intros st Hst; simpl.
  - exact Hst.
  - apply IH, dispatch_consistent, Hst.
Qed.

(** A reservation that a request stores references a slot that was open when
    the request arrived. *)
Lemma dispatch_reserves_open_slot route st request pk r :
  reservations st !! pk = None →
  reservations (dispatch route st request).1 !! pk = Some r →
  ∃ slot, time_slots st !! time_slot r = Some slot ∧ is_available slot = true.
Proof.
  intros Hfree Hnew.
  destruct (dispatch_effect route st request)
    as [[_ Hres]|[(slot_id & user & slot & _ & _ & Hslot & Havail & _ & Hres)
                 |(fields & _ & _ & Hres)]];
    rewrite Hres in Hnew; try congruence.
  destruct (decide (next_pk (reservations st) = pk)) as [<-|Hne].
  - rewrite lookup_insert_eq in Hnew. injection Hnew as <-. simpl. eauto.
  - rewrite lookup_insert_ne in Hnew by exact Hne. congruence.
Qed.

(** C3, as amended: from a store in which every reservation references a
    stored slot, every closed slot has exactly one reservation and every open
    slot has none, any sequence of requests to the ten handlers leads to a
    store of which the same holds; in particular every closed slot then has
    exactly one reservation.  And whatever the store at the start, a
    reservation stored by one of these requests references a slot whose flag
    was true when that request arrived. *)
Theorem reservation_invariant_preserved st requests :
  store_consistent st →
  store_consistent (run requests st)
  ∧ reserved_once (run requests st)
  ∧ ∀ before route request rest pk r,
      requests = (before ++ (route, request) :: rest)%list →
      reservations (run before st) !! pk = None →
      reservations (dispatch route (run before st) request).1 !! pk = Some r →
      ∃ slot, time_slots (run before st) !! time_slot r = Some slot
              ∧ is_available slot = true.
Proof.
  intros Hst.
  pose proof (run_consistent requests st Hst) as Hrun.
  split; [exact Hrun|]. split; [exact (proj1 (proj2 Hrun))|].
  intros before route request rest pk r _. apply dispatch_reserves_open_slot.
Qed.

End Invariant.

(** C3, as first stated, fails: in this store the only slot is open, so every
    closed slot has exactly one reservation, and its one reservation
    references that open slot; after one [reserve_slot] request of the
    logged-in session the slot is closed and has two reservations. *)
Lemma reserved_once_not_preserved :
  reserved_once booked_open_state
  ∧ references_exist booked_open_state
  ∧ time_slots (run (H:=sample_collaborators) [(Route_reserve_slot 1, get_request)]
                  booked_open_state) !! 1
    = Some (mkTimeSlot (Some 1) 1 new_year "10:00-11:00" false)
  ∧ size (reservations_of
            (run (H:=sample_collaborators) [(Route_reserve_slot 1, get_request)]
               booked_open_state) 1) = 2
  ∧ ¬ reserved_once
        (run (H:=sample_collaborators) [(Route_reserve_slot 1, get_request)]
           booked_open_state).
Proof.
  split; [apply (bool_decide_unpack _); vm_compute; exact I|].
  split; [apply (bool_decide_unpack _); vm_compute; exact I|].
  split; [vm_compute; reflexivity|].
  split; [vm_compute; reflexivity|].
  apply (bool_decide_unpack _). vm_compute. exact I.
Qed.

Lemma reservation_invariant_preserved_witness :
  store_consistent
    (run (H:=sample_collaborators)
       [(Route_reserve_slot 1, get_request);
        (Route_create_new_proposition, proposition_request)] sample_state)
  ∧ reserved_once
      (run (H:=sample_collaborators)
         [(Route_reserve_slot 1, get_request);
          (Route_create_new_proposition, proposition_request)] sample_state).
Proof.
  destruct (reservation_invariant_preserved (H:=sample_collaborators) sample_state
              [(Route_reserve_slot 1, get_request);
               (Route_create_new_proposition, proposition_request)])
    as (Hall & Honce & _).
  - apply (bool_decide_unpack _). vm_compute. exact I.
  - split; [exact Hall|exact Honce].
Defined.

(** * Further properties of the views *)

(** ** The dashboard and the login view *)

Section Dashboard.
Context `{Collaborators}.

(** X1: for a logged-in session, [home_user] renders the dashboard with
    exactly the stored skills, help requests and slots whose user is the
    session's user, under their keys, and the store is as it was. *)
Theorem home_user_lists_own_records st request user :
  request_user st request = Some user →
  ∃ own_skills own_requests own_slots,
    home_user st request
      = (st, Render "allo_aide/home_user.html"
               (HomeUserContext own_skills own_requests own_slots))
    ∧ (∀ pk s, own_skills !! pk = Some s
         ↔ skills st !! pk = Some s ∧ skill_user s = Some user)
    ∧ (∀ pk h, own_requests !! pk = Some h
         ↔ help_requests st !! pk = Some h ∧ help_user h = Some user)
    ∧ (∀ pk t, own_slots !! pk = Some t
         ↔ time_slots st !! pk = Some t ∧ slot_user t = Some user).
Proof.
  intros Huser.
  exists (filter (λ kv, skill_user kv.2 = Some user) (skills st)),
         (filter (λ kv, help_user kv.2 = Some user) (help_requests st)),
         (filter (λ kv, slot_user kv.2 = Some user) (time_slots st)).
  split; [unfold home_user; rewrite Huser; reflexivity|].
  split; [|split]; intros pk row; rewrite map_lookup_filter_Some; reflexivity.
Qed.

(** X2: a POST whose form is valid and whose credentials the check accepts
    logs the session of the request in as the user the check returned,
    whoever was logged in on it before, and redirects to the dashboard; the
    other sessions and the four tables are as they were. *)
Theorem login_view_logs_session_in st request username password user :
  method request = "POST" →
  AuthenticationForm_clean (POST request) = Some (username, password) →
  authenticate username password = Some user →
  (login_view st request).2 = Redirect "allo_aide:home_user"
  ∧ request_user (login_view st request).1 request = Some user
  ∧ (∀ key, key ≠ session_key request →
       sessions (login_view st request).1 !! key = sessions st !! key)
  ∧ skills (login_view st request).1 = skills st
  ∧ help_requests (login_view st request).1 = help_requests st
  ∧ time_slots (login_view st request).1 = time_slots st
  ∧ reservations (login_view st request).1 = reservations st.
Proof.
  intros Hmethod Hform Hauth. unfold login_view.
  rewrite decide_True by exact Hmethod. rewrite Hform, Hauth. simpl.
  repeat split.
  - unfold request_user. simpl. apply lookup_insert_eq.
  - intros key Hkey. apply lookup_insert_ne. congruence.
Qed.

(** X3: [login_view] leaves the whole store alone and renders the login page
    again whenever the method is not POST, the form is invalid, or the
    credential check refuses; the form on the page is empty for a method
    other than POST and bound to the submitted data for a POST. *)
Theorem login_view_refusal st request :
  method request ≠ "POST"
  ∨ AuthenticationForm_clean (POST request) = None
  ∨ (∃ username password,
       AuthenticationForm_clean (POST request) = Some (username, password)
       ∧ authenticate username password = None) →
  ∃ form,
    login_view st request = (st, Render "allo_aide/login.html" (FormContext form))
    ∧ (method request = "POST" → form = BoundForm (POST request))
    ∧ (method request ≠ "POST" → form = UnboundForm).
Proof.
  intros Hrefused. unfold login_view.
  destruct (decide (method request = "POST")) as [Hmethod|Hmethod].
  - exists (BoundForm (POST request)).
    split; [|split; [reflexivity|contradiction]].
    destruct Hrefused as [Hnot|[Hform|(username & password & Hform & Hauth)]].
    + contradiction.
    + rewrite Hform. reflexivity.
    + rewrite Hform, Hauth. reflexivity.
  - exists UnboundForm. split; [reflexivity|]. split; [contradiction|reflexivity].
Qed.

(** X4: after a successful login the session is served: [history] on it
    renders the history page instead of redirecting.  A logout then makes it
    anonymous again, and when nobody was logged in on the session before the
    login, the store is back to what it was. *)
Theorem login_then_served_then_logout st request request' username password user :
  method request = "POST" →
  AuthenticationForm_clean (POST request) = Some (username, password) →
  authenticate username password = Some user →
  session_key request' = session_key request →
  (∃ rows,
     history (login_view st request).1 request'
       = ((login_view st request).1, Render "allo_aide/history.html" (HistoryContext rows)))
  ∧ request_user (logout_view (login_view st request).1 request').1 request' = None
  ∧ (request_user st request = None →
       (logout_view (login_view st request).1 request').1 = st).
Proof.
  intros Hmethod Hform Hauth Hkey.
  assert (login_view st request
          = (login request user st, Redirect "allo_aide:home_user")) as Hlogin.
  { unfold login_view. rewrite decide_True by exact Hmethod.
    rewrite Hform, Hauth. reflexivity. }
  rewrite Hlogin. simpl.
  assert (request_user (login request user st) request' = Some user) as Huser.
  { unfold request_user, login. simpl. rewrite Hkey. apply lookup_insert_eq. }
  split; [|split].
  - eexists. unfold history, login_required, history_view. rewrite Huser. reflexivity.
  - unfold request_user, logout, login. simpl. apply lookup_delete_eq.
  - intros Hanon. unfold request_user in Hanon.
    unfold logout, login, set_sessions. simpl. rewrite Hkey.
    rewrite delete_insert_eq, delete_id by exact Hanon.
    destruct st; reflexivity.
Qed.

(** X14: [logout_view] touches the session of the request only: the four
    tables and every other session are as they were; on a session nobody is
    logged in on it changes nothing at all; and a second logout changes
    nothing more. *)
Theorem logout_view_own_session_only st request :
  skills (logout_view st request).1 = skills st
  ∧ help_requests (logout_view st request).1 = help_requests st
  ∧ time_slots (logout_view st request).1 = time_slots st
  ∧ reservations (logout_view st request).1 = reservations st
  ∧ (∀ key, key ≠ session_key request →
       sessions (logout_view st request).1 !! key = sessions st !! key)
  ∧ (request_user st request = None → (logout_view st request).1 = st)
  ∧ (logout_view (logout_view st request).1 request).1 = (logout_view st request).1.
Proof.
  unfold logout_view, logout, set_sessions, request_user. simpl.
  repeat split.
  - intros key Hkey. apply lookup_delete_ne. congruence.
  - intros Hanon. rewrite delete_id by exact Hanon. destruct st; reflexivity.
  - rewrite delete_delete_eq. reflexivity.
Qed.

End Dashboard.

Lemma home_user_lists_own_records_witness :
  ∃ own_skills own_requests own_slots,
    home_user sample_state get_request
      = (sample_state, Render "allo_aide/home_user.html"
           (HomeUserContext own_skills own_requests own_slots))
    ∧ own_skills !! 2 = Some (mkSkill (Some 2) "Baking" "")
    ∧ own_skills !! 1 = None.
Proof.
  destruct (home_user_lists_own_records sample_state get_request 2)
    as (ss & hs & ts & Hpage & Hskills & _); [vm_compute; reflexivity|].
  exists ss, hs, ts. split; [exact Hpage|]. split.
  - apply Hskills. vm_compute. split; reflexivity.
  - destruct (ss !! 1) as [s|] eqn:Hs; [|reflexivity].
    apply Hskills in Hs as [Hstored Howner].
    vm_compute in Hstored. injection Hstored as <-. discriminate Howner.
Defined.

Lemma login_view_logs_session_in_witness :
  (login_view (H:=sample_collaborators) sample_state login_request).2
    = Redirect "allo_aide:home_user"
  ∧ request_user (login_view (H:=sample_collaborators) sample_state login_request).1
      login_request = Some 1.
Proof.
  destruct (login_view_logs_session_in (H:=sample_collaborators) sample_state login_request
              "alice" "wonderland" 1) as (Hresponse & Huser & _).
  - reflexivity.
  - vm_compute. reflexivity.
  - vm_compute. reflexivity.
  - split; [exact Hresponse|exact Huser].
Defined.

Lemma login_view_refusal_witness :
  ∃ form,
    login_view (H:=sample_collaborators) sample_state bad_login_request
      = (sample_state, Render "allo_aide/login.html" (FormContext form))
    ∧ form = BoundForm (POST bad_login_request).
Proof.
  destruct (login_view_refusal (H:=sample_collaborators) sample_state bad_login_request)
    as (form & Hpage & Hbound & _).
  - right. right. exists "alice", "looking-glass". split; vm_compute; reflexivity.
  - exists form. split; [exact Hpage|]. apply Hbound. reflexivity.
Defined.

Lemma login_then_served_then_logout_witness :
  (∃ rows,
     history (login_view (H:=sample_collaborators) sample_state login_request).1
       anonymous_request
       = ((login_view (H:=sample_collaborators) sample_state login_request).1,
          Render "allo_aide/history.html" (HistoryContext rows)))
  ∧ (logout_view (login_view (H:=sample_collaborators) sample_state login_request).1
       anonymous_request).1 = sample_state.
Proof.
  destruct (login_then_served_then_logout (H:=sample_collaborators) sample_state
              login_request anonymous_request "alice" "wonderland" 1)
    as (Hserved & _ & Hback).
  - reflexivity.
  - vm_compute. reflexivity.
  - vm_compute. reflexivity.
  - reflexivity.
  - split; [exact Hserved|]. apply Hback. vm_compute. reflexivity.
Defined.

Lemma logout_view_own_session_only_witness :
  sessions (logout_view sample_state anonymous_request).1 !! 7 = sessions sample_state !! 7
  ∧ (logout_view sample_state anonymous_request).1 = sample_state.
Proof.
  destruct (logout_view_own_session_only sample_state anonymous_request)
    as (_ & _ & _ & _ & Hothers & Hanon & _).
  split.
  - apply Hothers. simpl. discriminate.
  - apply Hanon. vm_compute. reflexivity.
Defined.

(** ** More on the creation views *)

Section CreationDetails.
Context `{Collaborators}.

(** X5: a POST to [create_new_request] with a valid form stores exactly one
    new help request, the instance the form built with the owner the form
    gave, under a key that was free; the help requests already stored keep
    their keys, the other tables and the sessions are as they were, and the
    response redirects to the dashboard.  No login is asked for. *)
Theorem create_new_request_stores_form_instance st request help_request :
  method request = "POST" →
  HelpRequestForm_clean st (POST request) = Some help_request →
  (create_new_request st request).2 = Redirect "allo_aide:home_user"
  ∧ (∃ pk, help_requests st !! pk = None
       ∧ help_requests (create_new_request st request).1
         = <[pk := help_request]> (help_requests st))
  ∧ size (help_requests (create_new_request st request).1) = S (size (help_requests st))
  ∧ (∀ pk h, help_requests st !! pk = Some h →
       help_requests (create_new_request st request).1 !! pk = Some h)
  ∧ skills (create_new_request st request).1 = skills st
  ∧ time_slots (create_new_request st request).1 = time_slots st
  ∧ reservations (create_new_request st request).1 = reservations st
  ∧ sessions (create_new_request st request).1 = sessions st.
Proof.
  intros Hmethod Hvalid. unfold create_new_request.
  rewrite decide_True by exact Hmethod. rewrite Hvalid. simpl.
  repeat split.
  - exists (next_pk (help_requests st)). split; [apply next_pk_fresh|reflexivity].
  - apply objects_create_size.
  - intros pk h Hstored. unfold objects_create. rewrite lookup_insert_ne; [exact Hstored|].
    intros <-. rewrite next_pk_fresh in Hstored. discriminate.
Qed.

(** X6: a POST whose form is invalid stores nothing: each creation view
    returns the store as it was and renders its page again with the form
    bound to the submitted data. *)
Theorem creation_views_invalid_form st request :
  method request = "POST" →
  (SkillForm_clean st (POST request) = None →
     create_new_skill st request
       = (st, Render "allo_aide/create_new_skill.html"
                (FormContext (BoundForm (POST request)))))
  ∧ (HelpRequestForm_clean st (POST request) = None →
       create_new_request st request
         = (st, Render "allo_aide/create_new_demande.html"
                  (FormContext (BoundForm (POST request)))))
  ∧ (TimeSlotForm_clean st (POST request) = None →
       create_new_proposition st request
         = (st, Render "allo_aide/create_new_proposition.html"
                  (FormContext (BoundForm (POST request))))).
Proof.
  intros Hmethod.
  unfold create_new_skill, create_new_request, create_new_proposition.
  rewrite !decide_True by exact Hmethod.
  repeat split; intros Hinvalid; rewrite Hinvalid; reflexivity.
Qed.

(** X7: a POST to [create_new_skill] on a logged-in session with a valid form
    stores exactly one new skill, with the name and description of the form
    and the session's user as owner, under a key that was free; the skills
    already stored keep their keys, the other tables and the sessions are as
    they were, and the response redirects to the dashboard. *)
Theorem create_new_skill_adds_one_skill st request user new_skill :
  method request = "POST" →
  SkillForm_clean st (POST request) = Some new_skill →
  request_user st request = Some user →
  (create_new_skill st request).2 = Redirect "allo_aide:home_user"
  ∧ (∃ pk, skills st !! pk = None
       ∧ skills (create_new_skill st request).1
         = <[pk := mkSkill (Some user) (skill_name new_skill) (skill_description new_skill)]>
             (skills st))
  ∧ size (skills (create_new_skill st request).1) = S (size (skills st))
  ∧ (∀ pk s, skills st !! pk = Some s →
       skills (create_new_skill st request).1 !! pk = Some s)
  ∧ help_requests (create_new_skill st request).1 = help_requests st
  ∧ time_slots (create_new_skill st request).1 = time_slots st
  ∧ reservations (create_new_skill st request).1 = reservations st
  ∧ sessions (create_new_skill st request).1 = sessions st.
Proof.
  intros Hmethod Hvalid Huser.
  rewrite (new_skill_owner_is_session_user _ _ _ _ Hmethod Hvalid Huser). simpl.
  repeat split.
  - exists (next_pk (skills st)). split; [apply next_pk_fresh|reflexivity].
  - apply objects_create_size.
  - intros pk s Hstored. unfold objects_create. rewrite lookup_insert_ne; [exact Hstored|].
    intros <-. rewrite next_pk_fresh in Hstored. discriminate.
Qed.

(** X8: a POST to [create_new_proposition] with a valid form stores exactly
    one new slot, built from the fields of the form, under a key that was
    free; the slots already stored keep their keys and their flags, no
    reservation is created, and the other tables and the sessions are as they
    were. *)
Theorem create_new_proposition_adds_one_slot st request fields :
  method request = "POST" →
  TimeSlotForm_clean st (POST request) = Some fields →
  (create_new_proposition st request).2 = Redirect "allo_aide:home_user"
  ∧ (∃ pk, time_slots st !! pk = None
       ∧ time_slots (create_new_proposition st request).1
         = <[pk := TimeSlotForm_instance fields]> (time_slots st))
  ∧ size (time_slots (create_new_proposition st request).1) = S (size (time_slots st))
  ∧ (∀ pk t, time_slots st !! pk = Some t →
       time_slots (create_new_proposition st request).1 !! pk = Some t)
  ∧ reservations (create_new_proposition st request).1 = reservations st
  ∧ skills (create_new_proposition st request).1 = skills st
  ∧ help_requests (create_new_proposition st request).1 = help_requests st
  ∧ sessions (create_new_proposition st request).1 = sessions st.
Proof.
  intros Hmethod Hvalid.
  rewrite (proj1 (new_slot_owner_is_submitted _ _ _ Hmethod Hvalid)). simpl.
  repeat split.
  - exists (next_pk (time_slots st)). split; [apply next_pk_fresh|reflexivity].
  - apply objects_create_size.
  - intros pk t Hstored. unfold objects_create. rewrite lookup_insert_ne; [exact Hstored|].
    intros <-. rewrite next_pk_fresh in Hstored. discriminate.
Qed.

(** X9: [create_new_request] and [create_new_proposition] never read the
    session: two requests with the same method and the same form data get the
    same store and the same response, whoever is, or is not, logged in. *)
Theorem creation_ignores_session st request request' :
  method request' = method request →
  POST request' = POST request →
  create_new_request st request' = create_new_request st request
  ∧ create_new_proposition st request' = create_new_proposition st request.
Proof.
  intros Hmethod Hdata. unfold create_new_request, create_new_proposition.
  rewrite Hmethod, Hdata. split; reflexivity.
Qed.

End CreationDetails.

Lemma create_new_request_stores_form_instance_witness :
  request_user sample_state help_request_post = None
  ∧ (create_new_request (H:=sample_collaborators) sample_state help_request_post).2
    = Redirect "allo_aide:home_user"
  ∧ (∃ pk, help_requests sample_state !! pk = None
       ∧ help_requests
           (create_new_request (H:=sample_collaborators) sample_state help_request_post).1
         = <[pk := mkHelpRequest (Some 1) "A dripping tap"]> (help_requests sample_state)).
Proof.
  split; [vm_compute; reflexivity|].
  destruct (create_new_request_stores_form_instance (H:=sample_collaborators) sample_state
              help_request_post (mkHelpRequest (Some 1) "A dripping tap"))
    as (Hresponse & Hnew & _).
  - reflexivity.
  - vm_compute. reflexivity.
  - split; [exact Hresponse|exact Hnew].
Defined.

Lemma creation_views_invalid_form_witness :
  create_new_skill (H:=sample_collaborators) sample_state nameless_skill_request
    = (sample_state, Render "allo_aide/create_new_skill.html"
         (FormContext (BoundForm (POST nameless_skill_request)))).
Proof.
  destruct (creation_views_invalid_form (H:=sample_collaborators) sample_state
              nameless_skill_request) as (Hskill & _); [reflexivity|].
  apply Hskill. vm_compute. reflexivity.
Defined.

Lemma create_new_skill_adds_one_skill_witness :
  (create_new_skill (H:=sample_collaborators) sample_state skill_request).2
    = Redirect "allo_aide:home_user"
  ∧ (∃ pk, skills sample_state !! pk = None
       ∧ skills (create_new_skill (H:=sample_collaborators) sample_state skill_request).1
         = <[pk := mkSkill (Some 2) "Sewing" "Hems"]> (skills sample_state))
  ∧ size (skills (create_new_skill (H:=sample_collaborators) sample_state skill_request).1)
    = S (size (skills sample_state)).
Proof.
  destruct (create_new_skill_adds_one_skill (H:=sample_collaborators) sample_state
              skill_request 2 (mkSkill None "Sewing" "Hems"))
    as (Hresponse & Hnew & Hsize & _).
  - reflexivity.
  - vm_compute. reflexivity.
  - vm_compute. reflexivity.
  - split; [exact Hresponse|]. split; [exact Hnew|exact Hsize].
Defined.

Lemma create_new_proposition_adds_one_slot_witness :
  (create_new_proposition (H:=sample_collaborators) sample_state proposition_request).2
    = Redirect "allo_aide:home_user"
  ∧ reservations
      (create_new_proposition (H:=sample_collaborators) sample_state proposition_request).1
    = reservations sample_state
  ∧ size (time_slots
            (create_new_proposition (H:=sample_collaborators) sample_state
               proposition_request).1)
    = S (size (time_slots sample_state)).
Proof.
  destruct (create_new_proposition_adds_one_slot (H:=sample_collaborators) sample_state
              proposition_request
              (mkTimeSlotFields (Some 1) 1 (mkDate 2024 1 2) "09:00-10:00"))
    as (Hresponse & _ & Hsize & _ & Hreservations & _).
  - reflexivity.
  - vm_compute. reflexivity.
  - split; [exact Hresponse|]. split; [exact Hreservations|exact Hsize].
Defined.

Lemma creation_ignores_session_witness :
  create_new_request (H:=sample_collaborators) sample_state
    (mkRequest 7 "POST" (POST help_request_post))
    = create_new_request (H:=sample_collaborators) sample_state help_request_post
  ∧ create_new_proposition (H:=sample_collaborators) sample_state
      (mkRequest 8 "POST" (POST proposition_request))
    = create_new_proposition (H:=sample_collaborators) sample_state proposition_request.
Proof.
  split.
  - apply (creation_ignores_session (H:=sample_collaborators) sample_state
             help_request_post (mkRequest 7 "POST" (POST help_request_post)));
      reflexivity.
  - apply (creation_ignores_session (H:=sample_collaborators) sample_state
             proposition_request (mkRequest 8 "POST" (POST proposition_request)));
      reflexivity.
Defined.

(** ** What the handlers change, and what they keep *)

Lemma lookup_objects_create_old {A} (row : A) (table : gmap nat A) pk old :
  table !! pk = Some old → objects_create row table !! pk = Some old.
Proof.
  intros Hstored. unfold objects_create. rewrite lookup_insert_ne; [exact Hstored|].
  intros <-. rewrite next_pk_fresh in Hstored. discriminate.
Qed.

Lemma slot_later_refl t : slot_later t t.
Proof. unfold slot_later. tauto. Qed.

Lemma slot_later_trans t1 t2 t3 : slot_later t1 t2 → slot_later t2 t3 → slot_later t1 t3.
Proof. unfold slot_later. intros (?&?&?&?&?) (?&?&?&?&?). repeat split; try congruence; auto. Qed.

Lemma store_later_refl st : store_later st st.
Proof. unfold store_later. repeat split; auto. eauto using slot_later_refl. Qed.

Lemma store_later_trans st1 st2 st3 :
  store_later st1 st2 → store_later st2 st3 → store_later st1 st3.
Proof.
  intros (Hs & Hh & Hr & Ht) (Hs' & Hh' & Hr' & Ht'). repeat split; auto.
  intros pk t Hstored.
  destruct (Ht pk t Hstored) as (t' & Hstored' & Hlater).
  destruct (Ht' pk t' Hstored') as (t'' & Hstored'' & Hlater').
  exists t''. split; [exact Hstored''|]. eapply slot_later_trans; eassumption.
Qed.

Section Frame.
Context `{Collaborators}.

(** X10: each table has its writers.  Only [create_new_skill] changes the
    skills, only [create_new_request] the help requests, only
    [create_new_proposition] and [reserve_slot] the slots, only
    [reserve_slot] the reservations, and only the login and logout views the
    sessions. *)
Theorem dispatch_frame route st request :
  (route ≠ Route_create_new_skill → skills (dispatch route st request).1 = skills st)
  ∧ (route ≠ Route_create_new_request →
       help_requests (dispatch route st request).1 = help_requests st)
  ∧ (route ≠ Route_create_new_proposition → (∀ slot_id, route ≠ Route_reserve_slot slot_id) →
       time_slots (dispatch route st request).1 = time_slots st)
  ∧ ((∀ slot_id, route ≠ Route_reserve_slot slot_id) →
       reservations (dispatch route st request).1 = reservations st)
  ∧ (route ≠ Route_login → route ≠ Route_logout →
       sessions (dispatch route st request).1 = sessions st).
Proof.
  destruct route; unfold dispatch;
    unfold home, home_user, login_view, logout_view, create_new_skill, create_new_request,
      create_new_proposition, find_slots, reserve_slot, history, history_view,
      login_required, reserve_slot_view, get_object_or_404;
    repeat case_match; simpl; repeat split; intros; try reflexivity; try congruence.
  all: exfalso;
    match goal with Hne : ∀ _, _ ≠ _ |- _ => exact (Hne _ eq_refl) end.
Qed.

(** No handler removes or rewrites a stored row, but for closing a slot. *)
Lemma dispatch_store_later route st request :
  store_later st (dispatch route st request).1.
Proof.
  destruct route; unfold dispatch;
    unfold home, home_user, login_view, logout_view, create_new_skill, create_new_request,
      create_new_proposition, find_slots, reserve_slot, history, history_view,
      login_required, reserve_slot_view, get_object_or_404;
    repeat case_match; simpl; try apply store_later_refl.
  all: unfold store_later; simpl; repeat split; auto using lookup_objects_create_old.
  all: try (intros pk old Hstored; exists old; split;
            [auto using lookup_objects_create_old|apply slot_later_refl]; fail).
  intros pk old Hstored. unfold objects_update.
  match goal with |- context [<[?key := _]> _] => rename key into slot_id end.
  destruct (decide (slot_id = pk)) as [<-|Hne].
  - rewrite lookup_insert_eq. eexists. split; [reflexivity|].
    match goal with Hread : time_slots st !! slot_id = Some ?slot |- _ =>
      assert (old = slot) as -> by congruence end.
    unfold slot_later. simpl. repeat split.
  - rewrite lookup_insert_ne by exact Hne.
    exists old. split; [exact Hstored|apply slot_later_refl].
Qed.

Lemma run_keeps_rows requests st : store_later st (run requests st).
Proof.
  revert st. induction requests as [|[route request] rest IH]; intros st; simpl.
  - apply store_later_refl.
  - eapply store_later_trans; [apply dispatch_store_later|apply IH].
Qed.

(** X11: nothing is ever deleted or rewritten.  After any sequence of
    requests every skill, help request and reservation that was stored is
    still stored, unchanged, under its key; every slot is still stored with
    the same user, skill, date and schedule, and a slot that was closed is
    still closed. *)
Theorem nothing_deleted requests st :
  (∀ pk s, skills st !! pk = Some s → skills (run requests st) !! pk = Some s)
  ∧ (∀ pk h, help_requests st !! pk = Some h →
       help_requests (run requests st) !! pk = Some h)
  ∧ (∀ pk r, reservations st !! pk = Some r →
       reservations (run requests st) !! pk = Some r)
  ∧ (∀ pk t, time_slots st !! pk = Some t →
       ∃ t', time_slots (run requests st) !! pk = Some t'
             ∧ slot_user t' = slot_user t
             ∧ slot_skill t' = slot_skill t
             ∧ slot_date t' = slot_date t
             ∧ slot_schedule t' = slot_schedule t
             ∧ (is_available t = false → is_available t' = false)).
Proof.
  destruct (run_keeps_rows requests st) as (Hskills & Hrequests & Hreservations & Hslots).
  split; [exact Hskills|]. split; [exact Hrequests|]. split; [exact Hreservations|].
  intros pk t Hstored. destruct (Hslots pk t Hstored) as (t' & Hstored' & Hlater).
  exists t'. split; [exact Hstored'|exact Hlater].
Qed.

Lemma run_keeps_closed requests st slot_id slot :
  time_slots st !! slot_id = Some slot →
  is_available slot = false →
  ∃ slot', time_slots (run requests st) !! slot_id = Some slot'
           ∧ is_available slot' = false.
Proof.
  intros Hstored Hclosed.
  destruct (run_keeps_rows requests st) as (_ & _ & _ & Hslots).
  destruct (Hslots _ _ Hstored) as (slot' & Hstored' & Hlater).
  exists slot'. split; [exact Hstored'|]. apply Hlater, Hclosed.
Qed.

(** X12: once a slot is reserved it is never offered again: whatever requests
    follow the reservation, neither the home page nor [find_slots], for any
    skill and date, lists it. *)
Theorem reserved_slot_never_offered_again st request slot_id user slot requests :
  request_user st request = Some user →
  time_slots st !! slot_id = Some slot →
  is_available slot = true →
  ∀ request' skill_id date,
    offered_slots (home (run requests (reserve_slot slot_id st request).1) request').2
      !! slot_id = None
    ∧ offered_slots
        (find_slots skill_id date (run requests (reserve_slot slot_id st request).1)
           request').2 !! slot_id = None.
Proof.
  intros Huser Hslot Havail request' skill_id date.
  destruct (run_keeps_closed requests (reserve_slot slot_id st request).1 slot_id
              (mkTimeSlot (slot_user slot) (slot_skill slot) (slot_date slot)
                 (slot_schedule slot) false)) as (slot' & Hstored & Hclosed).
  { rewrite (reserve_slot_open _ _ _ _ _ Huser Hslot Havail). simpl.
    apply lookup_insert_eq. }
  { reflexivity. }
  set (later := run requests _) in *.
  split.
  - unfold home. simpl. apply map_lookup_filter_None. right.
    intros t Ht Hopen. simpl in Hopen. congruence.
  - unfold find_slots, get_object_or_404.
    destruct (skills later !! skill_id); [|reflexivity].
    destruct (strptime_Ymd date); simpl; [|reflexivity].
    apply map_lookup_filter_None. right.
    intros t Ht (_ & _ & Hopen). simpl in Hopen. congruence.
Qed.

(** X13: once a slot is reserved it cannot be reserved again: whatever
    requests follow the reservation, a [reserve_slot] request for it on any
    logged-in session is answered with the error page and the store is as it
    was. *)
Theorem reserved_slot_never_reserved_again st request slot_id user slot requests
    request' user' :
  request_user st request = Some user →
  time_slots st !! slot_id = Some slot →
  is_available slot = true →
  request_user (run requests (reserve_slot slot_id st request).1) request' = Some user' →
  reserve_slot slot_id (run requests (reserve_slot slot_id st request).1) request'
    = (run requests (reserve_slot slot_id st request).1,
       Render "allo_aide/error.html" (ErrorContext already_reserved_message)).
Proof.
  intros Huser Hslot Havail Huser'.
  destruct (run_keeps_closed requests (reserve_slot slot_id st request).1 slot_id
              (mkTimeSlot (slot_user slot) (slot_skill slot) (slot_date slot)
                 (slot_schedule slot) false)) as (slot' & Hstored & Hclosed).
  { rewrite (reserve_slot_open _ _ _ _ _ Huser Hslot Havail). simpl.
    apply lookup_insert_eq. }
  { reflexivity. }
  exact (reserve_slot_closed _ _ _ _ _ Huser' Hstored Hclosed).
Qed.

End Frame.

Lemma dispatch_frame_witness :
  skills (dispatch (H:=sample_collaborators) (Route_reserve_slot 1) sample_state
            get_request).1 = skills sample_state
  ∧ reservations (dispatch (H:=sample_collaborators) Route_create_new_proposition
                    sample_state proposition_request).1 = reservations sample_state
  ∧ sessions (dispatch (H:=sample_collaborators) Route_create_new_skill sample_state
                skill_request).1 = sessions sample_state.
Proof.
  split; [|split].
  - apply (dispatch_frame (H:=sample_collaborators) (Route_reserve_slot 1)). discriminate.
  - apply (dispatch_frame (H:=sample_collaborators) Route_create_new_proposition).
    intros slot_id. discriminate.
  - apply (dispatch_frame (H:=sample_collaborators) Route_create_new_skill); discriminate.
Defined.

Lemma reserved_slot_never_offered_again_witness :
  offered_slots
    (home (run (H:=sample_collaborators)
             [(Route_create_new_proposition, proposition_request);
              (Route_logout, get_request)]
             (reserve_slot 1 sample_state get_request).1) anonymous_request).2 !! 1 = None
  ∧ offered_slots
      (find_slots (H:=sample_collaborators) 1 "2024-01-01"
         (run (H:=sample_collaborators)
            [(Route_create_new_proposition, proposition_request);
             (Route_logout, get_request)]
            (reserve_slot 1 sample_state get_request).1) anonymous_request).2 !! 1 = None.
Proof.
  apply (reserved_slot_never_offered_again (H:=sample_collaborators) sample_state
           get_request 1 2 (mkTimeSlot (Some 1) 1 new_year "10:00-11:00" true)).
  - vm_compute. reflexivity.
  - vm_compute. reflexivity.
  - reflexivity.
Defined.

Lemma reserved_slot_never_reserved_again_witness :
  reserve_slot 1
    (run (H:=sample_collaborators)
       [(Route_create_new_proposition, proposition_request); (Route_login, login_request)]
       (reserve_slot 1 sample_state get_request).1) login_request
  = (run (H:=sample_collaborators)
       [(Route_create_new_proposition, proposition_request); (Route_login, login_request)]
       (reserve_slot 1 sample_state get_request).1,
     Render "allo_aide/error.html" (ErrorContext already_reserved_message)).
Proof.
  apply (reserved_slot_never_reserved_again (H:=sample_collaborators) sample_state
           get_request 1 2 (mkTimeSlot (Some 1) 1 new_year "10:00-11:00" true)
           [(Route_create_new_proposition, proposition_request); (Route_login, login_request)]
           login_request 1).
  - vm_compute. reflexivity.
  - vm_compute. reflexivity.
  - reflexivity.
  - vm_compute. reflexivity.
Defined.

(** ** Reservations and the pages that show them *)

Section ReservationPages.
Context `{Collaborators}.

(** X15: a reservation shows up in the history of the one who made it: after
    a successful [reserve_slot], [history] on the same session lists the new
    reservation, under its new key, with the slot, now closed, and the slot's
    skill attached. *)
Theorem reserve_then_history st request slot_id user slot :
  request_user st request = Some user →
  time_slots st !! slot_id = Some slot →
  is_available slot = true →
  ∃ rows pk,
    history (reserve_slot slot_id st request).1 request
      = ((reserve_slot slot_id st request).1,
         Render "allo_aide/history.html" (HistoryContext rows))
    ∧ reservations st !! pk = None
    ∧ rows !! pk
      = Some (mkReservationRow (mkReservation slot_id user)
                (Some (mkTimeSlot (slot_user slot) (slot_skill slot) (slot_date slot)
                         (slot_schedule slot) false))
                (skills st !! slot_skill slot)).
Proof.
  intros Huser Hslot Havail.
  rewrite (reserve_slot_open _ _ _ _ _ Huser Hslot Havail). simpl.
  eexists. exists (next_pk (reservations st)).
  split; [|split; [apply next_pk_fresh|]].
  - unfold history, login_required, history_view, request_user in *. simpl.
    rewrite Huser. reflexivity.
  - simpl. rewrite lookup_fmap.
    erewrite (map_lookup_filter_Some_2 _ _ (next_pk (reservations st))
                (mkReservation slot_id user)).
    + unfold select_related. simpl. rewrite lookup_insert_eq. reflexivity.
    + apply lookup_insert_eq.
    + reflexivity.
Qed.

(** X16: for a logged-in session [reserve_slot] has three outcomes and no
    other: not-found when the slot is not stored, the error page when it is
    closed, both with the store as it was, and the redirect to the history
    view when it is open; the redirect is given only with a store that has
    one more reservation. *)
Theorem reserve_slot_outcomes st request slot_id user :
  request_user st request = Some user →
  (time_slots st !! slot_id = None ∧ reserve_slot slot_id st request = (st, Http404))
  ∨ (∃ slot, time_slots st !! slot_id = Some slot ∧ is_available slot = false
       ∧ reserve_slot slot_id st request
         = (st, Render "allo_aide/error.html" (ErrorContext already_reserved_message)))
  ∨ (∃ slot, time_slots st !! slot_id = Some slot ∧ is_available slot = true
       ∧ (reserve_slot slot_id st request).2 = Redirect "allo_aide:history"
       ∧ size (reservations (reserve_slot slot_id st request).1)
         = S (size (reservations st))).
Proof.
  intros Huser.
  destruct (time_slots st !! slot_id) as [slot|] eqn:Hslot.
  - destruct (is_available slot) eqn:Havail.
    + right. right. exists slot.
      rewrite (reserve_slot_open _ _ _ _ _ Huser Hslot Havail). simpl.
      repeat split; try assumption. apply map_size_insert_None, next_pk_fresh.
    + right. left. exists slot.
      rewrite (reserve_slot_closed _ _ _ _ _ Huser Hslot Havail).
      repeat split; assumption.
  - left. split; [reflexivity|].
    unfold reserve_slot, login_required, reserve_slot_view, get_object_or_404.
    rewrite Huser, Hslot. reflexivity.
Qed.

End ReservationPages.

Lemma reserve_then_history_witness :
  ∃ rows pk,
    history (reserve_slot 1 sample_state get_request).1 get_request
      = ((reserve_slot 1 sample_state get_request).1,
         Render "allo_aide/history.html" (HistoryContext rows))
    ∧ reservations sample_state !! pk = None
    ∧ rows !! pk
      = Some (mkReservationRow (mkReservation 1 2)
                (Some (mkTimeSlot (Some 1) 1 new_year "10:00-11:00" false))
                (Some (mkSkill (Some 1) "Plumbing" "Leaks and taps"))).
Proof.
  apply (reserve_then_history sample_state get_request 1 2
           (mkTimeSlot (Some 1) 1 new_year "10:00-11:00" true)).
  - vm_compute. reflexivity.
  - vm_compute. reflexivity.
  - reflexivity.
Defined.

Lemma reserve_slot_outcomes_witness :
  (time_slots sample_state !! 9 = None
   ∧ reserve_slot 9 sample_state get_request = (sample_state, Http404))
  ∨ (∃ slot, time_slots sample_state !! 9 = Some slot ∧ is_available slot = false
       ∧ reserve_slot 9 sample_state get_request
         = (sample_state,
            Render "allo_aide/error.html" (ErrorContext already_reserved_message)))
  ∨ (∃ slot, time_slots sample_state !! 9 = Some slot ∧ is_available slot = true
       ∧ (reserve_slot 9 sample_state get_request).2 = Redirect "allo_aide:history"
       ∧ size (reservations (reserve_slot 9 sample_state get_request).1)
         = S (size (reservations sample_state))).
Proof.
  apply (reserve_slot_outcomes sample_state get_request 9 2).
  vm_compute. reflexivity.
Defined.

(** ** Consequences of the reservation invariant *)

(** In a consistent store every reservation references a closed slot, and no
    two reservations reference the same slot. *)
Lemma store_consistent_one_to_one st :
  store_consistent st →
  (∀ pk r, reservations st !! pk = Some r →
     ∃ slot, time_slots st !! time_slot r = Some slot ∧ is_available slot = false)
  ∧ (∀ pk1 pk2 r1 r2,
       reservations st !! pk1 = Some r1 →
       reservations st !! pk2 = Some r2 →
       time_slot r1 = time_slot r2 → pk1 = pk2).
Proof.
  intros Hst. pose proof Hst as (Hrefs & Honce & Hfree).
  assert (∀ pk r, reservations st !! pk = Some r →
            ∃ slot, time_slots st !! time_slot r = Some slot ∧ is_available slot = false)
    as Hclosed.
  { intros pk r Hr. destruct (Hrefs pk r Hr) as [slot Hslot].
    exists slot. split; [exact Hslot|].
    destruct (is_available slot) eqn:Havail; [|reflexivity]. exfalso.
    pose proof (Hfree _ _ Hslot Havail) as Hnone. simpl in Hnone.
    apply map_size_empty_iff in Hnone.
    exact (map_empty_filter_1 _ _ Hnone pk r Hr eq_refl). }
  split; [exact Hclosed|].
  intros pk1 pk2 r1 r2 Hr1 Hr2 Hsame.
  destruct (Hclosed pk1 r1 Hr1) as (slot & Hslot & Havail).
  pose proof (Honce _ _ Hslot Havail) as Hone. simpl in Hone.
  destruct (decide (pk1 = pk2)) as [Heq|Hne]; [exact Heq|]. exfalso.
  assert (reservations_of st (time_slot r1) !! pk1 = Some r1) as Hin1.
  { apply map_lookup_filter_Some. split; [exact Hr1|reflexivity]. }
  assert (reservations_of st (time_slot r1) !! pk2 = Some r2) as Hin2.
  { apply map_lookup_filter_Some. split; [exact Hr2|]. simpl. congruence. }
  assert (size (delete pk1 (reservations_of st (time_slot r1))) = 0) as Hrest.
  { rewrite map_size_delete_Some by eauto. rewrite Hone. reflexivity. }
  apply map_size_empty_iff in Hrest.
  assert (delete pk1 (reservations_of st (time_slot r1)) !! pk2 = Some r2) as Hleft.
  { rewrite lookup_delete_ne by exact Hne. exact Hin2. }
  rewrite Hrest, lookup_empty in Hleft. discriminate.
Qed.

Section Booking.
Context `{Collaborators}.

(** X17: no double booking.  From a consistent store, after any sequence of
    requests, every reservation references a stored slot that is closed, and
    no two reservations reference the same slot. *)
Theorem no_double_booking st requests :
  store_consistent st →
  (∀ pk r, reservations (run requests st) !! pk = Some r →
     ∃ slot, time_slots (run requests st) !! time_slot r = Some slot
             ∧ is_available slot = false)
  ∧ (∀ pk1 pk2 r1 r2,
       reservations (run requests st) !! pk1 = Some r1 →
       reservations (run requests st) !! pk2 = Some r2 →
       time_slot r1 = time_slot r2 → pk1 = pk2).
Proof.
  intros Hst. apply store_consistent_one_to_one, run_consistent, Hst.
Qed.

(** X18: starting from the empty store, whatever the requests, every closed
    slot has exactly one reservation, every open slot has none, and every
    reservation references a stored slot. *)
Theorem empty_store_stays_consistent requests :
  store_consistent (run requests empty_state)
  ∧ reserved_once (run requests empty_state)
  ∧ available_unreserved (run requests empty_state)
  ∧ references_exist (run requests empty_state).
Proof.
  assert (store_consistent (run requests empty_state)) as Hrun.
  { apply run_consistent. apply (bool_decide_unpack _). vm_compute. exact I. }
  pose proof Hrun as (Hrefs & Honce & Hfree).
  repeat split; assumption.
Qed.

End Booking.

Lemma no_double_booking_witness :
  ∃ slot,
    time_slots (run (H:=sample_collaborators)
                  [(Route_reserve_slot 1, get_request); (Route_reserve_slot 1, get_request)]
                  sample_state) !! 1 = Some slot
    ∧ is_available slot = false.
Proof.
  destruct (no_double_booking (H:=sample_collaborators) sample_state
              [(Route_reserve_slot 1, get_request); (Route_reserve_slot 1, get_request)])
    as (Hclosed & _).
  - apply (bool_decide_unpack _). vm_compute. exact I.
  - apply (Hclosed 2 (mkReservation 1 2)). vm_compute. reflexivity.
Defined.

Lemma nothing_deleted_witness :
  reservations
    (run (H:=sample_collaborators)
       [(Route_reserve_slot 1, get_request); (Route_logout, get_request);
        (Route_create_new_proposition, proposition_request)] sample_state) !! 1
  = Some (mkReservation 2 2)
  ∧ ∃ t', time_slots
            (run (H:=sample_collaborators)
               [(Route_reserve_slot 1, get_request); (Route_logout, get_request);
                (Route_create_new_proposition, proposition_request)] sample_state) !! 2
          = Some t'
          ∧ is_available t' = false.
Proof.
  destruct (nothing_deleted (H:=sample_collaborators)
              [(Route_reserve_slot 1, get_request); (Route_logout, get_request);
               (Route_create_new_proposition, proposition_request)] sample_state)
    as (_ & _ & Hreservations & Hslots).
  split.
  - apply Hreservations. vm_compute. reflexivity.
  - destruct (Hslots 2 (mkTimeSlot (Some 1) 1 new_year "14:00-15:00" false))
      as (t' & Hstored & _ & _ & _ & _ & Hclosed); [vm_compute; reflexivity|].
    exists t'. split; [exact Hstored|]. apply Hclosed. reflexivity.
Defined.
